(** * CoH training driver ([coh/coh_train.py]) as a shallow embedding

    The file follows [main] of [coh/coh_train.py] top to bottom: flag
    record, dataset loading, the sequence-length assertion, model
    configuration, the nested step functions ([train_step], [eval_step],
    [save_checkpoint]), state restoration and the training loop.

    Numerical kernels (model forward pass, autodiff, the optimizer, PRNG
    splitting) live outside the file being verified and are taken as an
    interface; control flow, Python name binding, dictionaries and
    iterators are modelled as the driver uses them. *)

From stdpp Require Import gmap strings list fin_maps.
From Stdlib Require Import ZArith Lia Ascii.

Local Open Scope string_scope.
Local Open Scope list_scope.
Local Open Scope Z_scope.

(** ** Python runtime fragments *)

(** The exceptions the driver can raise by itself. *)
Inductive exn : Type :=
  | ValueError (msg : string)
  | AssertionError (msg : string)
  | UnboundLocalError (var : string)
  | NameError (var : string)
  | StopIteration
  | ZeroDivisionError.

(** [range(a, b)]: empty when [b <= a]. *)
Definition py_range (a b : Z) : list Z :=
  (λ i : nat, a + Z.of_nat i) <$> seq 0 (Z.to_nat (b - a)).

(** [a % b] on Python ints: floor modulus, raising on a zero divisor. *)
Definition py_mod (a b : Z) : exn + Z :=
  if decide (b = 0) then inl ZeroDivisionError else inr (a `mod` b).

(** [next(it)] on an iterator with the given remaining items. *)
Definition py_next {A} (it : list A) : exn + (A * list A) :=
  match it with
  | [] => inl StopIteration
  | x :: it' => inr (x, it')
  end.

(** [zip(a, b, c)]: stops at the first exhausted argument. *)
Fixpoint zip3 {A B C} (a : list A) (b : list B) (c : list C)
  : list (A * B * C) :=
  match a, b, c with
  | x :: a', y :: b', z :: c' => (x, y, z) :: zip3 a' b' c'
  | _, _, _ => []
  end.

(** [s.split(c)] for a one-character separator. *)
Fixpoint split_char (c : Ascii.ascii) (s : string) : list string :=
  match s with
  | EmptyString => [EmptyString]
  | String a s' =>
      if decide (a = c) then EmptyString :: split_char c s'
      else match split_char c s' with
           | h :: t => String a h :: t
           | [] => [String a EmptyString]
           end
  end.

Fixpoint drop_string (n : nat) (s : string) : string :=
  match n, s with
  | O, _ => s
  | S n', String _ s' => drop_string n' s'
  | S _, EmptyString => EmptyString
  end.

(** [s.split(sep, 1)]: [None] stands for the one-element list [[s]]
    returned when [sep] does not occur. *)
Fixpoint split_once (sep s : string) : option (string * string) :=
  if String.prefix sep s then Some (EmptyString, drop_string (String.length sep) s)
  else match s with
       | EmptyString => None
       | String a s' =>
           match split_once sep s' with
           | Some (l, r) => Some (String a l, r)
           | None => None
           end
       end.

(** [d.update(other)]: keys of [other] win. *)
Definition dict_update {V} (d other : gmap string V) : gmap string V :=
  other ∪ d.

(** ** External interface: values and numeric kernels *)

Inductive model_kind : Type := GPTJ | OPT.

Class Domain : Type := {
  Scalar : Type;            (* a floating point number *)
  Tensor : Type;            (* one array leaf of a pytree *)
  Key : Type;               (* a jax PRNG key *)
  Logits : Type;
  OptState : Type;
  Tokenizer : Type;
  TokenizerCfg : Type;
  DatasetCfg : Type;
  ModelCfg : Type;
  OptimizerCfg : Type;
  LoggerCfg : Type;
  ConfigRest : Type;        (* the model-config fields the driver never touches *)
  Variant : Type;           (* result of [utils.get_user_flags] *)
  FlagsDict : Type;         (* result of [utils.user_flags_to_config_dict] *)
  tensor_add : Tensor → Tensor → Tensor;          (* [x + y] on arrays *)
  tensor_mul_scalar : Tensor → Scalar → Tensor;   (* [x * w], array by float *)
  scalar_mul_tensor : Scalar → Tensor → Tensor;   (* [w * x], float by array *)
}.

(** A pytree, flattened: leaf paths in traversal order with their leaves. *)
Abbreviation PyTree := (list (string * Tensor)) (only parsing).

Section Driver.
Context `{D : Domain}.

(** [jax.tree_map(f, a, b)]: the two trees must have the same structure. *)
Definition tree_map2 (f : Tensor → Tensor → Tensor) (a b : PyTree)
  : exn + PyTree :=
  if decide (a.*1 = b.*1)
  then inr (zip_with (λ x y, (x.1, f x.2 y.2)) a b)
  else inl (ValueError "tree structure mismatch").

Record Batch : Type := {
  tokens : list (list Z);
  loss_masks : list (list Z);
}.

(** What the driver uses of a dataset object. *)
Record Dataset : Type := {
  seq_length : Z;
  ds_tokenizer : Tokenizer;
  batches : list Batch;     (* what iterating the dataset yields *)
}.

(** [GPTJConfig] / [OPTConfig]: the fields the driver reads or updates. *)
Record Config : Type := {
  bos_token_id : Z;
  eos_token_id : Z;
  vocab_size : Z;
  config_rest : ConfigRest;
}.

(** [flax.training.train_state.TrainState] ([tx] and [apply_fn] are
    static and kept in the environment). *)
Record TrainState : Type := {
  step : Z;
  params : PyTree;
  opt_state : OptState;
}.

(** An optax gradient transformation with the learning-rate schedule
    returned next to it by [OptimizerFactory.get_optimizer]. *)
Record Optimizer : Type := {
  tx_init : PyTree → OptState;
  tx_update : PyTree → OptState → PyTree → PyTree * OptState;
  learning_rate_schedule : Z → Scalar;
}.

(** [FLAGS] *)
Record Flags : Type := {
  seed : Z;
  initialize_jax_distributed : bool;
  mp_mesh_dim : Z;
  total_steps : Z;
  load_gptj_config : string;
  update_gptj_config : string;
  load_opt_config : string;
  update_opt_config : string;
  load_checkpoint : string;
  load_dataset_state : string;
  log_freq : Z;
  save_model_freq : Z;
  save_milestone_freq : Z;
  save_optimizer_state : bool;
  eval_steps : Z;
  tokenizer : TokenizerCfg;
  hf_train_dataset : DatasetCfg;
  pt_train_dataset : DatasetCfg;
  hf_eval_dataset : DatasetCfg;
  pt_eval_dataset : DatasetCfg;
  pt_loss_weight : Scalar;
  optimizer : OptimizerCfg;
  gptj : ModelCfg;
  opt : ModelCfg;
  model : string;
  logger : LoggerCfg;
  log_all_worker : bool;
}.

(** The collaborators of the driver: other modules of the package and the
    libraries underneath. *)
Class World : Type := {
  get_user_flags : Flags → Variant;
  user_flags_to_config_dict : Flags → FlagsDict;
  (* jax.numpy: a Python int outside the int32 range, stored as int32 *)
  int32_out_of_range : Z → Z;
  (* jax.random *)
  PRNGKey : Z → Key;
  random_split : Key → nat → nat → Key;   (* [split(key, num)[i]] *)
  (* coh.data and tokenizers *)
  load_pickle : string → Dataset;
  gptj_get_tokenizer : TokenizerCfg → Tokenizer;
  opt_get_tokenizer : TokenizerCfg → Tokenizer;
  load_dataset : DatasetCfg → Tokenizer → Dataset;
  tok_bos_token_id : Tokenizer → Z;
  tok_eos_token_id : Tokenizer → Z;
  tok_len : Tokenizer → Z;
  (* model configuration classes *)
  load_config : model_kind → string → Config;
  new_config : model_kind → ModelCfg → Config;
  eval_update : string → Config → exn + Config;
                                   (* [c.update(dict(eval(s)))]; [eval] may raise *)
  rng_keys : Config → list string;
  load_pretrained : Config → string → PyTree;
  (* the flax modules *)
  model_init : model_kind → Config → Z → list (string * Key) → PyTree;
  model_apply : model_kind → Config → PyTree → list (list Z)
                → list (string * Key) → Logits;
  (* coh.jax_utils *)
  cross_entropy_loss_and_accuracy :
    Logits → list (list Z) → list (list Z) → Scalar * Scalar;
  global_norm : PyTree → Scalar;
  mean : list Scalar → Scalar;            (* [jnp.mean(jnp.stack(xs))] *)
  match_partition_rules : TrainState → bool;   (* every leaf has a rule *)
  shard_params : PyTree → PyTree;
  (* jax autodiff: derivative of a scalar function w.r.t. one leaf *)
  partial_grad : (PyTree → Scalar) → PyTree → string → Tensor;
  (* optax / coh.optimizers *)
  get_optimizer : OptimizerCfg → Optimizer;
  apply_updates : PyTree → PyTree → PyTree;
  (* coh.checkpoint *)
  load_trainstate_checkpoint :
    string → exn + (option TrainState * option PyTree);
}.

Context `{W : World}.

(** [jnp.full(shape, x, dtype=jnp.int32)] for a Python int [x]: the value
    itself when it fits into 32 bits; what the array library makes of an
    int that does not fit is left to the interface. *)
Definition as_int32 (x : Z) : Z :=
  if decide (- 2 ^ 31 ≤ x < 2 ^ 31) then x else int32_out_of_range x.

(** ** Random keys *)

(** Modelled from the spec: the stateful key generator [JaxRNG] of
    [coh/jax_utils.py] is not part of the sources at hand.  The spec's
    RNGStream gives [split(stream) -> (subkey, advanced_stream)] and
    [split_many]: each call splits the current key, keeps the first part as
    the next internal key and hands out the rest. *)
Definition JaxRNG_call (rng : Key) : Key * Key :=
  (random_split rng 2 1, random_split rng 2 0).

(** Modelled from the spec: [JaxRNG.__call__(keys)] for a list of names
    (RNGStream's [split_many]), one subkey per name. *)
Definition JaxRNG_call_keys (rng : Key) (keys : list string)
  : list (string * Key) * Key :=
  let num := S (length keys) in
  (imap (λ i k, (k, random_split rng num (S i))) keys,
   random_split rng num 0).

(** Modelled from the spec: [set_random_seed(seed)] creates the
    process-wide stream of [coh/jax_utils.py] from the seed (RNGStream's
    [new]); [next_rng()] draws from it. *)
Definition set_random_seed (s : Z) : Key := PRNGKey s.
Definition next_rng (global_rng : Key) : Key * Key := JaxRNG_call global_rng.

(** ** Effects of [main]: raised exceptions and observable calls *)

Inductive pyval : Type :=
  | PyInt (z : Z)
  | PyFloat (x : Scalar).

(** The [metadata] dict built by [save_checkpoint], one field per key. *)
Record Metadata : Type := {
  md_step : Z;
  md_variant : Variant;
  md_flags : FlagsDict;
  md_gptj_config : Config;   (* [gptj_config.to_dict()] *)
}.

(** Calls of [main] into its collaborators, in program order. *)
Inductive event : Type :=
  | EvLoadTrainData (hf pt : Dataset)
  | EvModelConstruct (k : model_kind) (c : Config)
  | EvResolvePartition (c : Config)
  | EvTrainStep (i : Z) (metrics : gmap string Scalar)
  | EvEvalStep (metrics : gmap string Scalar)
  | EvLog (enabled : bool) (record : gmap string pyval)
  | EvSaveCheckpoint (i : Z) (milestone : bool)
  | EvSaveAll (enabled : bool) (st : TrainState) (md : Metadata)
              (milestone : bool).

(** Exceptions only. *)
#[global] Instance exn_ret : MRet (sum exn) := λ A x, inr x.
#[global] Instance exn_bind : MBind (sum exn) := λ A B f m,
  match m with inl e => inl e | inr a => f a end.

(** Exceptions and the trace of calls made before them. *)
Definition M (A : Type) : Type := (list event * (exn + A))%type.

#[global] Instance M_ret : MRet M := λ A x, ([], inr x).
#[global] Instance M_bind : MBind M := λ A B f m,
  match m.2 with
  | inl e => (m.1, inl e)
  | inr a => ((m.1 ++ (f a).1)%list, (f a).2)
  end.

Definition emit (e : event) : M unit := ([e], inr tt).
Definition raise {A} (e : exn) : M A := ([], inl e).
Definition lift {A} (r : exn + A) : M A := ([], r).

(** Reading a local variable of [main] that some paths never assign. *)
Definition read_local {A} (name : string) (cell : option A) : exn + A :=
  match cell with
  | Some v => inr v
  | None => inl (UnboundLocalError name)
  end.

(** Reading, from a nested function, a variable of the enclosing [main]. *)
Definition read_free {A} (name : string) (cell : option A) : exn + A :=
  match cell with
  | Some v => inr v
  | None => inl (NameError name)
  end.

(** ** The variables of [main] that its nested functions close over *)

Record Env : Type := {
  FLAGS : Flags;
  process_index : Z;                 (* [jax.process_index()] *)
  variant : Variant;
  flags_config_dict : FlagsDict;
  model_var : model_kind;            (* which module [model] is *)
  config : Config;
  gptj_config : option Config;       (* assigned on the 'gptj' path only *)
  opt_config : option Config;        (* assigned on the 'opt' path only *)
  optimizer_var : Optimizer;
  env_seq_length : Z;
}.

Section Steps.
Variable env : Env.

(** [TrainState.create(params=params, tx=optimizer, apply_fn=None)] *)
Definition TrainState_create (p : PyTree) : TrainState :=
  {| step := 0; params := p; opt_state := tx_init (optimizer_var env) p |}.

(** [train_state.apply_gradients(grads=grads)] *)
Definition apply_gradients (ts : TrainState) (grads : PyTree) : TrainState :=
  let '(updates, new_opt_state) :=
    tx_update (optimizer_var env) grads (opt_state ts) (params ts) in
  {| step := step ts + 1;
     params := apply_updates (params ts) updates;
     opt_state := new_opt_state |}.

Definition create_trainstate_from_params (p : PyTree) : TrainState :=
  TrainState_create p.

Definition init_fn (rng : Key) : TrainState :=
  let rng_generator := rng in
  let '(rngs, rng_generator) :=
    JaxRNG_call_keys rng_generator (rng_keys (config env)) in
  let p := model_init (model_var env) (config env) (env_seq_length env) rngs in
  TrainState_create p.

(** The [loss_and_accuracy] closure shared by [train_step] and
    [eval_step]; [rng_generator] is the state of the enclosing function's
    key generator, returned advanced. *)
Definition loss_and_accuracy (rng_generator : Key) (p : PyTree) (batch : Batch)
  : Scalar * Scalar * Key :=
  let tokens_ := tokens batch in
  let loss_masks_ := loss_masks batch in
  let bos_tokens : list (list Z) :=
    (λ _ : list Z, [as_int32 (bos_token_id (config env))]) <$> tokens_ in
  let inputs : list (list Z) :=
    zip_with app bos_tokens ((λ row : list Z, removelast row) <$> tokens_) in
  let '(rngs, rng_generator) :=
    JaxRNG_call_keys rng_generator (rng_keys (config env)) in
  let logits := model_apply (model_var env) (config env) p inputs rngs in
  (cross_entropy_loss_and_accuracy logits tokens_ loss_masks_, rng_generator).

(** [jax.value_and_grad(f, has_aux=True, argnums=0)]: [f] is traced once,
    so it draws its keys once; the gradient tree mirrors the parameters. *)
Definition value_and_grad
    (f : Key → PyTree → Batch → Scalar * Scalar * Key)
    (rng_generator : Key) (p : PyTree) (batch : Batch)
  : Scalar * Scalar * PyTree * Key :=
  let '(loss, accuracy, rng_generator') := f rng_generator p batch in
  (loss, accuracy,
   (λ kv, (kv.1, partial_grad (λ p', (f rng_generator p' batch).1.1) p kv.1))
     <$> p,
   rng_generator').

(** The leaf-wise combination inside [train_step]. *)
Definition combine_grads (hf_grads pt_grads : PyTree) : exn + PyTree :=
  tree_map2
    (λ hf_grad pt_grad,
       tensor_add hf_grad
         (tensor_mul_scalar pt_grad (pt_loss_weight (FLAGS env))))
    hf_grads pt_grads.

Definition train_step (train_state : TrainState) (rng : Key)
    (hf_batch pt_batch : Batch)
  : exn + (TrainState * Key * gmap string Scalar) :=
  let rng_generator := rng in
  let grad_fn := value_and_grad loss_and_accuracy in
  let '(hf_loss, hf_accuracy, hf_grads, rng_generator) :=
    grad_fn rng_generator (params train_state) hf_batch in
  let '(pt_loss, pt_accuracy, pt_grads, rng_generator) :=
    grad_fn rng_generator (params train_state) pt_batch in
  grads ← combine_grads hf_grads pt_grads;
  let train_state := apply_gradients train_state grads in
  let metrics : gmap string Scalar :=
    <["hf_loss" := hf_loss]>
    (<["pt_loss" := pt_loss]>
    (<["hf_accuracy" := hf_accuracy]>
    (<["pt_accuracy" := pt_accuracy]>
    (<["learning_rate" :=
         learning_rate_schedule (optimizer_var env) (step train_state)]>
    (<["gradient_norm" := global_norm grads]>
    (<["param_norm" := global_norm (params train_state)]> ∅)))))) in
  mret (train_state, (JaxRNG_call rng_generator).1, metrics).

(** [eval_step] returns the name [metrics]; it has no local of that name,
    so the name resolves to the variable [metrics] of the enclosing
    [main], passed here as [metrics_cell] ([None] while unassigned).  The
    dict [aux] is built and dropped.  The name is read when the function
    runs, as Python does; [pjit] may keep the value seen at its first
    trace, which changes the values handed back and none of the keys. *)
Definition eval_step (train_state : TrainState) (rng : Key)
    (hf_batch pt_batch : Batch) (metrics_cell : option (gmap string Scalar))
  : exn + (Key * gmap string Scalar) :=
  let rng_generator := rng in
  let '(hf_loss, hf_accuracy, rng_generator) :=
    loss_and_accuracy rng_generator (params train_state) hf_batch in
  let '(pt_loss, pt_accuracy, rng_generator) :=
    loss_and_accuracy rng_generator (params train_state) pt_batch in
  let aux : gmap string Scalar :=
    <["hf_accuracy" := hf_accuracy]>
    (<["pt_accuracy" := pt_accuracy]>
    (<["hf_loss" := hf_loss]>
    (<["pt_loss" := pt_loss]> ∅))) in
  let aux : gmap string Scalar := kmap (String.append "eval_") aux in
  let '(out_rng, rng_generator) := JaxRNG_call rng_generator in
  metrics ← read_free "metrics" metrics_cell;
  mret (out_rng, metrics).

(** [save_checkpoint]: the metadata reads [gptj_config] of [main]. *)
Definition save_checkpoint (train_state : TrainState) (milestone : bool)
  : M unit :=
  let i := step train_state in
  emit (EvSaveCheckpoint i milestone);;
  gptj_config_dict ← lift (read_free "gptj_config" (gptj_config env));
  let metadata :=
    {| md_step := i;
       md_variant := variant env;
       md_flags := flags_config_dict env;
       md_gptj_config := gptj_config_dict |} in
  emit (EvSaveAll (bool_decide (process_index env = 0))
                  train_state metadata milestone).

(** Modelled from the spec: [average_metrics] of [coh/jax_utils.py] is not
    part of the sources at hand.  The spec has the evaluation metrics
    averaged into the log record: per key of the collected dicts, the mean
    of the collected values. *)
Definition average_metrics (l : list (gmap string Scalar))
  : gmap string Scalar :=
  match l with
  | [] => ∅
  | m :: ms => map_imap (λ k v, Some (mean (v :: omap (.!! k) ms))) m
  end.

(** The variables of [main] that change while the loop runs. *)
Record Locals : Type := {
  train_state : TrainState;
  sharded_rng : Key;
  hf_eval_iterator : list Batch;
  pt_eval_iterator : list Batch;
}.

(** [for _ in range(FLAGS.eval_steps)]: [n] iterations left, [metrics] is
    the current value of the variable of that name in [main]. *)
Fixpoint eval_loop (n : nat) (s : Locals) (metrics : gmap string Scalar)
    (eval_metric_list : list (gmap string Scalar))
  : M (Locals * list (gmap string Scalar)) :=
  match n with
  | O => mret (s, eval_metric_list)
  | S n' =>
      '(hf_batch, hf_it) ← lift (py_next (hf_eval_iterator s));
      '(pt_batch, pt_it) ← lift (py_next (pt_eval_iterator s));
      '(rng, eval_metrics) ←
        lift (eval_step (train_state s) (sharded_rng s) hf_batch pt_batch
                        (Some metrics));
      emit (EvEvalStep eval_metrics);;
      eval_loop n'
        {| train_state := train_state s;
           sharded_rng := rng;
           hf_eval_iterator := hf_it;
           pt_eval_iterator := pt_it |}
        metrics (eval_metric_list ++ [eval_metrics])
  end.

(** [if step % FLAGS.log_freq == 0: ...] *)
Definition log_phase (i : Z) (s : Locals) (metrics : gmap string Scalar)
  : M Locals :=
  r ← lift (py_mod i (log_freq (FLAGS env)));
  if decide (r = 0) then
    '(s, metrics) ←
      (if decide (0 < eval_steps (FLAGS env)) then
         '(s', eval_metric_list) ←
           eval_loop (Z.to_nat (eval_steps (FLAGS env))) s metrics [];
         mret (s', dict_update metrics (average_metrics eval_metric_list))
       else mret (s, metrics));
    let log_metrics : gmap string pyval := {[ "step" := PyInt i ]} in
    let log_metrics := dict_update log_metrics (PyFloat <$> metrics) in
    emit (EvLog (log_all_worker (FLAGS env)
                 || bool_decide (process_index env = 0)) log_metrics);;
    mret s
  else mret s.

(** The [if ... elif ...] that ends the loop body. *)
Definition save_phase (i : Z) (s : Locals) : M unit :=
  if decide (0 < save_milestone_freq (FLAGS env)
             ∧ (i + 1) `mod` save_milestone_freq (FLAGS env) = 0)
  then save_checkpoint (train_state s) true
  else if decide (0 < save_model_freq (FLAGS env)
                  ∧ (i + 1) `mod` save_model_freq (FLAGS env) = 0)
  then save_checkpoint (train_state s) false
  else mret tt.

Definition loop_body (s : Locals) (item : Z * Batch * Batch) : M Locals :=
  let '(i, hf_batch, pt_batch) := item in
  '(ts, rng, metrics) ←
    lift (train_step (train_state s) (sharded_rng s) hf_batch pt_batch);
  emit (EvTrainStep i metrics);;
  let s := {| train_state := ts;
              sharded_rng := rng;
              hf_eval_iterator := hf_eval_iterator s;
              pt_eval_iterator := pt_eval_iterator s |} in
  s ← log_phase i s metrics;
  save_phase i s;;
  mret s.

(** The [for] statement over the zipped iterators. *)
Fixpoint train_loop (s : Locals) (items : list (Z * Batch * Batch))
  : M Locals :=
  match items with
  | [] => mret s
  | item :: items' => s' ← loop_body s item; train_loop s' items'
  end.

(** From [start_step = ...] to the end of [main]. *)
Definition run (ts0 : TrainState) (global_rng : Key)
    (hf_dataset pt_dataset : Dataset) (hf_eval pt_eval : list Batch)
  : M Locals :=
  let start_step := step ts0 in
  (if decide (0 < save_model_freq (FLAGS env))
   then save_checkpoint ts0 false else mret tt);;
  let '(rng, global_rng) := next_rng global_rng in
  let step_counter := py_range start_step (total_steps (FLAGS env)) in
  s ← train_loop
        {| train_state := ts0;
           sharded_rng := rng;
           hf_eval_iterator := hf_eval;
           pt_eval_iterator := pt_eval |}
        (zip3 step_counter (batches hf_dataset) (batches pt_dataset));
  (if decide (0 < save_model_freq (FLAGS env))
   then save_checkpoint (train_state s) false else mret tt);;
  mret s.

(** The three-way choice after the optional checkpoint load. *)
Definition init_train_state (loaded : option TrainState)
    (restored_params : option PyTree) (global_rng : Key)
  : TrainState * Key :=
  match loaded, restored_params with
  | None, None =>
      let '(rng, global_rng) := next_rng global_rng in
      (init_fn rng, global_rng)
  | None, Some p => (create_trainstate_from_params p, global_rng)
  | Some ts, _ => (ts, global_rng)
  end.

(** [if FLAGS.load_checkpoint != '': ...]: the values of [train_state]
    and [restored_params] afterwards ([None] as in the source). *)
Definition load_source : M (option TrainState * option PyTree) :=
  if decide (load_checkpoint (FLAGS env) ≠ "") then
    match split_once "::" (load_checkpoint (FLAGS env)) with
    | None => raise (ValueError "not enough values to unpack")
    | Some (load_type, load_path) =>
        if decide (load_type = "huggingface") then
          c ← lift (read_local "gptj_config" (gptj_config env));
          mret (None, Some (shard_params (load_pretrained c load_path)))
        else lift (load_trainstate_checkpoint (load_checkpoint (FLAGS env)))
    end
  else mret (None, None).

Definition restore (global_rng : Key) : M (TrainState * Key) :=
  '(loaded, restored_params) ← load_source;
  mret (init_train_state loaded restored_params global_rng).

End Steps.

(** ** [main] before the nested functions are defined *)

Definition load_train_datasets (flags : Flags)
  : M (Dataset * Dataset * option Tokenizer) :=
  if decide (load_dataset_state flags ≠ "") then
    match split_char ","%char (load_dataset_state flags) with
    | [hf; pt] => mret (load_pickle hf, load_pickle pt, None)
    | _ => raise (ValueError "wrong number of values to unpack")
    end
  else
    tok ← (if decide (model flags = "gptj")
           then mret (gptj_get_tokenizer (tokenizer flags))
           else if decide (model flags = "opt")
           then mret (opt_get_tokenizer (tokenizer flags))
           else raise (ValueError "Unknown model"));
    mret (load_dataset (hf_train_dataset flags) tok,
          load_dataset (pt_train_dataset flags) tok, Some tok).

(** The eval iterators exist only when [FLAGS.eval_steps > 0]; they are
    read under the same condition, so the unassigned case is the empty
    list here. *)
Definition load_eval_iterators (flags : Flags) (hf_dataset pt_dataset : Dataset)
  : list Batch * list Batch :=
  if decide (0 < eval_steps flags) then
    (batches (load_dataset (hf_eval_dataset flags) (ds_tokenizer hf_dataset)),
     batches (load_dataset (pt_eval_dataset flags) (ds_tokenizer pt_dataset)))
  else ([], []).

(** One branch of [if FLAGS.model == ...], up to the tokenizer: the
    configuration loaded from a file or built from the flag dict, then
    updated from the evaluated update string, whose evaluation may raise. *)
Definition configured (k : model_kind) (load_from update : string)
    (kwargs : ModelCfg) : exn + Config :=
  let c := if decide (load_from ≠ "") then load_config k load_from
           else new_config k kwargs in
  if decide (update ≠ "") then eval_update update c else inr c.

(** One branch of [if FLAGS.model == ...]: the configuration object. *)
Definition make_config (k : model_kind) (load_from update : string)
    (kwargs : ModelCfg) (tokenizer_var : option Tokenizer) : M Config :=
  c ← lift (configured k load_from update kwargs);
  tok ← lift (read_local "tokenizer" tokenizer_var);
  let c := {| bos_token_id := tok_bos_token_id tok;
              eos_token_id := tok_eos_token_id tok;
              vocab_size := vocab_size c;
              config_rest := config_rest c |} in
  let c := if decide (vocab_size c < tok_len tok)
           then {| bos_token_id := bos_token_id c;
                   eos_token_id := eos_token_id c;
                   vocab_size := tok_len tok;
                   config_rest := config_rest c |}
           else c in
  emit (EvModelConstruct k c);;
  mret c.

(** Result: [model], [config], [gptj_config], [opt_config]. *)
Definition build_model (flags : Flags) (tokenizer_var : option Tokenizer)
  : M (model_kind * Config * option Config * option Config) :=
  if decide (model flags = "gptj") then
    c ← make_config GPTJ (load_gptj_config flags) (update_gptj_config flags)
                    (gptj flags) tokenizer_var;
    mret (GPTJ, c, Some c, None)
  else if decide (model flags = "opt") then
    c ← make_config OPT (load_opt_config flags) (update_opt_config flags)
                    (opt flags) tokenizer_var;
    mret (OPT, c, None, Some c)
  else raise (ValueError "Unknown model").

Definition main (flags : Flags) (pidx : Z) : M Locals :=
  let variant_ := get_user_flags flags in
  let flags_config_dict_ := user_flags_to_config_dict flags in
  let global_rng := set_random_seed (seed flags) in
  '(hf_dataset, pt_dataset, tokenizer_var) ← load_train_datasets flags;
  emit (EvLoadTrainData hf_dataset pt_dataset);;
  let '(hf_eval, pt_eval) := load_eval_iterators flags hf_dataset pt_dataset in
  (if decide (seq_length hf_dataset = seq_length pt_dataset) then mret tt
   else raise (AssertionError
                 "HF and PT datasets must have the same sequence length."));;
  '(model_, config_, gptj_config_, opt_config_) ← build_model flags tokenizer_var;
  let env :=
    {| FLAGS := flags;
       process_index := pidx;
       variant := variant_;
       flags_config_dict := flags_config_dict_;
       model_var := model_;
       config := config_;
       gptj_config := gptj_config_;
       opt_config := opt_config_;
       optimizer_var := get_optimizer (optimizer flags);
       env_seq_length := seq_length hf_dataset |} in
  let '(rng, global_rng) := next_rng global_rng in
  let train_state_shapes := init_fn env rng in
  (if match_partition_rules train_state_shapes
   then emit (EvResolvePartition config_)
   else raise (ValueError "Partition rule not found"));;
  '(ts0, global_rng) ← restore env global_rng;
  run env ts0 global_rng hf_dataset pt_dataset hf_eval pt_eval.

End Driver.

(** ** Reading traces *)

Section Observations.
Context `{W : World}.

(** The gradient of the loss on one batch, w.r.t. the leaf at path [k],
    with the generator in state [g] when the loss is traced. *)
Definition batch_grad (env : Env) (g : Key) (p : PyTree) (b : Batch)
    (k : string) : Tensor :=
  partial_grad (λ p', (loss_and_accuracy env g p' b).1.1) p k.

(** The training steps of a trace, with the metrics each returned. *)
Definition train_steps (tr : list event) : list (Z * gmap string Scalar) :=
  omap (λ e, match e with EvTrainStep i m => Some (i, m) | _ => None end) tr.

(** The calls of [save_checkpoint] in a trace: step and milestone flag. *)
Definition save_calls (tr : list event) : list (Z * bool) :=
  omap (λ e, match e with EvSaveCheckpoint i m => Some (i, m) | _ => None end)
       tr.

(** What the emitted log records hold under key [k]. *)
Definition logged (k : string) (tr : list event) : list (option pyval) :=
  omap (λ e, match e with EvLog _ r => Some (r !! k) | _ => None end) tr.

(** Events past the dataset loading. *)
Definition past_startup (e : event) : bool :=
  match e with
  | EvLoadTrainData _ _ => false
  | _ => true
  end.

(** An event with the host-dependent switch of its sink masked. *)
Definition erase_host (e : event) : event :=
  match e with
  | EvLog _ r => EvLog false r
  | EvSaveAll _ st md ms => EvSaveAll false st md ms
  | _ => e
  end.

(** What of a computation does not depend on the sinks being enabled. *)
Definition obs {A} (m : M A) : list event * (exn + A) :=
  (erase_host <$> m.1, m.2).

(** The same variables of [main] on another host. *)
Definition on_host (env : Env) (pidx : Z) : Env :=
  {| FLAGS := FLAGS env;
     process_index := pidx;
     variant := variant env;
     flags_config_dict := flags_config_dict env;
     model_var := model_var env;
     config := config env;
     gptj_config := gptj_config env;
     opt_config := opt_config env;
     optimizer_var := optimizer_var env;
     env_seq_length := env_seq_length env |}.

(** How many items the loop can draw from both training datasets. *)
Definition available (hf_dataset pt_dataset : Dataset) : nat :=
  (length (batches hf_dataset) `min` length (batches pt_dataset))%nat.

(** The keys of the dict [train_step] returns. *)
Definition train_metric_keys : gset string :=
  {[ "hf_loss"; "pt_loss"; "hf_accuracy"; "pt_accuracy"; "learning_rate";
     "gradient_norm"; "param_norm" ]}.

(** The keys [eval_step] gives to the entries of its [aux] dict. *)
Definition eval_metric_keys : gset string :=
  {[ "eval_hf_accuracy"; "eval_pt_accuracy"; "eval_hf_loss"; "eval_pt_loss" ]}.

(** No call of [save_checkpoint] can fail on its metadata: either
    [gptj_config] is bound or no interval is enabled. *)
Definition saves_ok (env : Env) : Prop :=
  is_Some (gptj_config env)
  ∨ ((save_model_freq (FLAGS env) ≤ 0)%Z
     ∧ (save_milestone_freq (FLAGS env) ≤ 0)%Z).

End Observations.

(** ** A small concrete world, for running the driver on examples *)

Module Toy.

Definition domain : Domain :=
  {| Scalar := Z; Tensor := Z; Key := Z; Logits := Z; OptState := Z;
     Tokenizer := Z; TokenizerCfg := Z; DatasetCfg := Z * nat;
     ModelCfg := Z; OptimizerCfg := unit; LoggerCfg := unit;
     ConfigRest := unit; Variant := unit; FlagsDict := unit;
     tensor_add := Z.add;
     tensor_mul_scalar := Z.mul;
     scalar_mul_tensor := Z.mul |}.

#[local] Existing Instance domain.

Definition batch : Batch :=
  {| tokens := [[5; 6; 7]; [8; 9; 10]]; loss_masks := [[1; 1; 1]; [0; 1; 1]] |}.

(** A dataset configuration is a sequence length and a number of batches. *)
Definition dataset (cfg : Z * nat) (tok : Z) : Dataset :=
  {| seq_length := cfg.1; ds_tokenizer := tok; batches := repeat batch cfg.2 |}.

Definition leaves_sum (p : list (string * Z)) : Z := foldr Z.add 0 (p.*2).

Definition sgd : Optimizer :=
  {| tx_init := λ _, 0;
     tx_update := λ g o _, (g, o + 1);
     learning_rate_schedule := λ i, i |}.

Definition checkpoint_500 : TrainState :=
  {| step := 500; params := [("wte", 3); ("lm_head", 4)]; opt_state := 500 |}.

Definition world : World :=
  {| get_user_flags := λ _, tt;
     user_flags_to_config_dict := λ _, tt;
     int32_out_of_range := λ x, (x + 2 ^ 31) `mod` 2 ^ 32 - 2 ^ 31;
     PRNGKey := λ s, s;
     random_split := λ k num i, k * Z.of_nat num + Z.of_nat i;
     load_pickle := λ path, dataset (Z.of_nat (String.length path), 3%nat) 0;
     gptj_get_tokenizer := λ c, c;
     opt_get_tokenizer := λ c, c;
     load_dataset := dataset;
     tok_bos_token_id := λ _, 1;
     tok_eos_token_id := λ _, 2;
     tok_len := λ t, t;
     load_config := λ _ _,
       {| bos_token_id := 0; eos_token_id := 0; vocab_size := 100;
          config_rest := tt |};
     new_config := λ _ v,
       {| bos_token_id := 0; eos_token_id := 0; vocab_size := v;
          config_rest := tt |};
     eval_update := λ update c,
       if decide (update = "undefined") then inl (NameError "undefined")
       else inr c;
     rng_keys := λ _, ["params"; "dropout"; "fcm"];
     load_pretrained := λ _ _, [("wte", 1); ("lm_head", 2)];
     model_init := λ _ _ _ _, [("wte", 0); ("lm_head", 0)];
     model_apply := λ _ _ p inputs _, leaves_sum p + Z.of_nat (length inputs);
     cross_entropy_loss_and_accuracy := λ logits _ _, (logits, 1);
     global_norm := leaves_sum;
     mean := λ xs, foldr Z.add 0 xs `div` Z.of_nat (length xs);
     match_partition_rules := λ _, true;
     shard_params := λ p, p;
     partial_grad := λ f p _, f p;
     get_optimizer := λ _, sgd;
     apply_updates := λ p u, zip_with (λ x y, (x.1, x.2 - y.2)) p u;
     load_trainstate_checkpoint := λ from,
       if decide (from = "trainstate::ckpt") then inr (Some checkpoint_500, None)
       else if decide (from = "params::ckpt")
       then inr (None, Some [("wte", 3); ("lm_head", 4)])
       else inl (ValueError "Invalid load_from type") |}.

(** The default flags of the source, with small data: 4 training batches
    and 8 evaluation batches per dataset. *)
Definition flags : Flags :=
  {| seed := 42; initialize_jax_distributed := false; mp_mesh_dim := -1;
     total_steps := 10000;
     load_gptj_config := ""; update_gptj_config := "";
     load_opt_config := ""; update_opt_config := "";
     load_checkpoint := ""; load_dataset_state := "";
     log_freq := 50; save_model_freq := 0; save_milestone_freq := 0;
     save_optimizer_state := false; eval_steps := 0;
     tokenizer := 50;
     hf_train_dataset := (16, 4%nat); pt_train_dataset := (16, 4%nat);
     hf_eval_dataset := (16, 8%nat); pt_eval_dataset := (16, 8%nat);
     pt_loss_weight := 3;
     optimizer := tt; gptj := 40; opt := 40; model := "gptj";
     logger := tt; log_all_worker := false |}.

Definition with_model (f : Flags) (m : string) : Flags :=
  {| seed := seed f; initialize_jax_distributed := initialize_jax_distributed f;
     mp_mesh_dim := mp_mesh_dim f; total_steps := total_steps f;
     load_gptj_config := load_gptj_config f;
     update_gptj_config := update_gptj_config f;
     load_opt_config := load_opt_config f;
     update_opt_config := update_opt_config f;
     load_checkpoint := load_checkpoint f;
     load_dataset_state := load_dataset_state f;
     log_freq := log_freq f; save_model_freq := save_model_freq f;
     save_milestone_freq := save_milestone_freq f;
     save_optimizer_state := save_optimizer_state f;
     eval_steps := eval_steps f; tokenizer := tokenizer f;
     hf_train_dataset := hf_train_dataset f;
     pt_train_dataset := pt_train_dataset f;
     hf_eval_dataset := hf_eval_dataset f;
     pt_eval_dataset := pt_eval_dataset f;
     pt_loss_weight := pt_loss_weight f; optimizer := optimizer f;
     gptj := gptj f; opt := opt f; model := m; logger := logger f;
     log_all_worker := log_all_worker f |}.

(** Intervals: total steps, log, rolling save, milestone save, eval steps. *)
Definition with_intervals (f : Flags) (total log save milestone evals : Z)
  : Flags :=
  {| seed := seed f; initialize_jax_distributed := initialize_jax_distributed f;
     mp_mesh_dim := mp_mesh_dim f; total_steps := total;
     load_gptj_config := load_gptj_config f;
     update_gptj_config := update_gptj_config f;
     load_opt_config := load_opt_config f;
     update_opt_config := update_opt_config f;
     load_checkpoint := load_checkpoint f;
     load_dataset_state := load_dataset_state f;
     log_freq := log; save_model_freq := save;
     save_milestone_freq := milestone;
     save_optimizer_state := save_optimizer_state f;
     eval_steps := evals; tokenizer := tokenizer f;
     hf_train_dataset := hf_train_dataset f;
     pt_train_dataset := pt_train_dataset f;
     hf_eval_dataset := hf_eval_dataset f;
     pt_eval_dataset := pt_eval_dataset f;
     pt_loss_weight := pt_loss_weight f; optimizer := optimizer f;
     gptj := gptj f; opt := opt f; model := model f; logger := logger f;
     log_all_worker := log_all_worker f |}.

Definition with_load_checkpoint (f : Flags) (from : string) : Flags :=
  {| seed := seed f; initialize_jax_distributed := initialize_jax_distributed f;
     mp_mesh_dim := mp_mesh_dim f; total_steps := total_steps f;
     load_gptj_config := load_gptj_config f;
     update_gptj_config := update_gptj_config f;
     load_opt_config := load_opt_config f;
     update_opt_config := update_opt_config f;
     load_checkpoint := from;
     load_dataset_state := load_dataset_state f;
     log_freq := log_freq f; save_model_freq := save_model_freq f;
     save_milestone_freq := save_milestone_freq f;
     save_optimizer_state := save_optimizer_state f;
     eval_steps := eval_steps f; tokenizer := tokenizer f;
     hf_train_dataset := hf_train_dataset f;
     pt_train_dataset := pt_train_dataset f;
     hf_eval_dataset := hf_eval_dataset f;
     pt_eval_dataset := pt_eval_dataset f;
     pt_loss_weight := pt_loss_weight f; optimizer := optimizer f;
     gptj := gptj f; opt := opt f; model := model f; logger := logger f;
     log_all_worker := log_all_worker f |}.

Definition with_train_data (f : Flags) (hf pt : Z * nat) : Flags :=
  {| seed := seed f; initialize_jax_distributed := initialize_jax_distributed f;
     mp_mesh_dim := mp_mesh_dim f; total_steps := total_steps f;
     load_gptj_config := load_gptj_config f;
     update_gptj_config := update_gptj_config f;
     load_opt_config := load_opt_config f;
     update_opt_config := update_opt_config f;
     load_checkpoint := load_checkpoint f;
     load_dataset_state := load_dataset_state f;
     log_freq := log_freq f; save_model_freq := save_model_freq f;
     save_milestone_freq := save_milestone_freq f;
     save_optimizer_state := save_optimizer_state f;
     eval_steps := eval_steps f; tokenizer := tokenizer f;
     hf_train_dataset := hf; pt_train_dataset := pt;
     hf_eval_dataset := hf_eval_dataset f;
     pt_eval_dataset := pt_eval_dataset f;
     pt_loss_weight := pt_loss_weight f; optimizer := optimizer f;
     gptj := gptj f; opt := opt f; model := model f; logger := logger f;
     log_all_worker := log_all_worker f |}.

(** The variables of [main] once the model is configured, on host 0. *)
Definition env_of (f : Flags) (gptj_cfg opt_cfg : option (@Config domain))
  : @Env domain :=
  let c := {| bos_token_id := 1; eos_token_id := 2; vocab_size := 50;
              config_rest := tt |} in
  {| FLAGS := f; process_index := 0; variant := tt; flags_config_dict := tt;
     model_var := match gptj_cfg with Some _ => GPTJ | None => OPT end;
     config := c; gptj_config := gptj_cfg; opt_config := opt_cfg;
     optimizer_var := sgd; env_seq_length := 16 |}.

Definition toy_config : @Config domain :=
  {| bos_token_id := 1; eos_token_id := 2; vocab_size := 50;
     config_rest := tt |}.

Definition locals (ts : TrainState) (n : nat) : Locals :=
  {| train_state := ts; sharded_rng := 11;
     hf_eval_iterator := repeat batch n; pt_eval_iterator := repeat batch n |}.

(** A 'gptj' run at its first logging step, two evaluation steps. *)
Definition env_eval : Env :=
  env_of (with_intervals flags 10 1 0 0 2)
             (Some toy_config) None.

(** A run resumed with 1000 total steps, logging every 50 steps with two
    evaluation steps, rolling checkpoints every 50 and milestones every 250
    steps. *)
Definition env_resume : Env :=
  env_of (with_intervals flags 1000 50 50 250 2)
             (Some toy_config) None.

(** The same flags with [model='opt']. *)
Definition flags_opt : Flags :=
  with_model (with_intervals flags 3 1 1 0 0) "opt".

Definition env_opt : Env := env_of flags_opt None (Some toy_config).

Definition env_pretrained : Env :=
  env_of (with_load_checkpoint flags "huggingface::gpt-j")
             (Some toy_config) None.

Definition flags_mismatch : Flags :=
  with_train_data flags (16, 4%nat) (32, 4%nat).

Definition with_dataset_state (f : Flags) (state : string) : Flags :=
  {| seed := seed f; initialize_jax_distributed := initialize_jax_distributed f;
     mp_mesh_dim := mp_mesh_dim f; total_steps := total_steps f;
     load_gptj_config := load_gptj_config f;
     update_gptj_config := update_gptj_config f;
     load_opt_config := load_opt_config f;
     update_opt_config := update_opt_config f;
     load_checkpoint := load_checkpoint f;
     load_dataset_state := state;
     log_freq := log_freq f; save_model_freq := save_model_freq f;
     save_milestone_freq := save_milestone_freq f;
     save_optimizer_state := save_optimizer_state f;
     eval_steps := eval_steps f; tokenizer := tokenizer f;
     hf_train_dataset := hf_train_dataset f;
     pt_train_dataset := pt_train_dataset f;
     hf_eval_dataset := hf_eval_dataset f;
     pt_eval_dataset := pt_eval_dataset f;
     pt_loss_weight := pt_loss_weight f; optimizer := optimizer f;
     gptj := gptj f; opt := opt f; model := model f; logger := logger f;
     log_all_worker := log_all_worker f |}.

(** Dataset states: one path only, and two pickles of equal length. *)
Definition flags_one_path : Flags := with_dataset_state flags "hf.pkl".
Definition flags_two_paths : Flags := with_dataset_state flags "hf.pkl,pt.pkl".

Definition flags_unknown_model : Flags := with_model flags "llama".

(** A checkpoint flag without load type. *)
Definition env_no_separator : Env :=
  env_of (with_load_checkpoint flags "ckpt") (Some toy_config) None.

(** [log_freq = 0] with rolling checkpoints every step. *)
Definition env_zero_log_freq : Env :=
  env_of (with_intervals flags 10 0 1 0 0) (Some toy_config) None.

(** Ten steps left after step 500, [log_freq = 0], rolling checkpoints
    every step. *)
Definition env_resume_zero_log_freq : Env :=
  env_of (with_intervals flags 510 0 1 0 0) (Some toy_config) None.

(** Six steps left after step 500: logging every 2 steps with one
    evaluation step, rolling saves every 3 and milestones every 6 steps. *)
Definition env_short : Env :=
  env_of (with_intervals flags 506 2 3 6 1) (Some toy_config) None.

End Toy.

(** ** Schedules and shapes read off the loop *)

Fixpoint count_char (c : Ascii.ascii) (s : string) : nat :=
  match s with
  | EmptyString => 0%nat
  | String a s' => ((if decide (a = c) then 1 else 0) + count_char c s')%nat
  end.

Section Schedules.
Context `{W : World}.

(** The [inputs] array of [loss_and_accuracy]: a column of
    [config.bos_token_id] in front of [tokens[:, :-1]]. *)
Definition model_inputs (env : Env) (batch : Batch) : list (list Z) :=
  let tokens_ := tokens batch in
  let bos_tokens : list (list Z) :=
    (λ _ : list Z, [as_int32 (bos_token_id (config env))]) <$> tokens_ in
  zip_with app bos_tokens ((λ row : list Z, removelast row) <$> tokens_).

(** The configuration of the chosen model family before the tokenizer is
    consulted, or the exception its update string raises. *)
Definition flag_config (flags : Flags) (k : model_kind) : exn + Config :=
  match k with
  | GPTJ => configured GPTJ (load_gptj_config flags) (update_gptj_config flags)
                       (gptj flags)
  | OPT => configured OPT (load_opt_config flags) (update_opt_config flags)
                      (opt flags)
  end.

(** What the [if ... elif ...] at the end of the loop body saves at loop
    counter [i]: the step of the state saved and the milestone flag. *)
Definition save_schedule (flags : Flags) (i : Z) : option (Z * bool) :=
  if decide (0 < save_milestone_freq flags
             ∧ (i + 1) `mod` save_milestone_freq flags = 0)
  then Some (i + 1, true)
  else if decide (0 < save_model_freq flags
                  ∧ (i + 1) `mod` save_model_freq flags = 0)
  then Some (i + 1, false)
  else None.

(** The loop counters at which [step % FLAGS.log_freq == 0]. *)
Definition log_steps (flags : Flags) (steps : list Z) : list Z :=
  filter (λ i, i `mod` log_freq flags = 0) steps.

(** The loop counters a run goes through. *)
Definition run_steps (flags : Flags) (ts0 : TrainState)
    (hf_dataset pt_dataset : Dataset) : list Z :=
  take (available hf_dataset pt_dataset)
       (py_range (step ts0) (total_steps flags)).

(** Nothing in the loop bodies for the loop counters [steps] can raise:
    the interval test has a non-zero divisor, the metadata of every
    checkpoint that is due can be built, and the held-out iterators hold
    [eval_steps] batches for each logging step. *)
Definition loop_can_run (env : Env) (steps : list Z)
    (hf_eval pt_eval : list Batch) : Prop :=
  (steps ≠ [] → log_freq (FLAGS env) ≠ 0)
  ∧ (is_Some (gptj_config env)
     ∨ (save_model_freq (FLAGS env) ≤ 0
        ∧ Forall (λ i, save_schedule (FLAGS env) i = None) steps))
  ∧ (Z.to_nat (eval_steps (FLAGS env))
     * length (log_steps (FLAGS env) steps) ≤ length hf_eval)%nat
  ∧ (Z.to_nat (eval_steps (FLAGS env))
     * length (log_steps (FLAGS env) steps) ≤ length pt_eval)%nat.

End Schedules.

(** * The evaluation harness adapter ([coh/scripts/lm_eval_harness.py]) *)

Module Harness.

(** [zip] applied to the unpacked [rows]: one tuple per position, up to
    the shortest row. *)
Fixpoint zip_star {A} (rows : list (list A)) : list (list A) :=
  match rows with
  | [] => []
  | r :: rs =>
      match rs with
      | [] => (λ x, [x]) <$> r
      | _ :: _ => zip_with cons r (zip_star rs)
      end
  end.

(** [a, b = xs]: unpacking into exactly two names. *)
Definition unpack2 {A} (xs : list A) : exn + (A * A) :=
  match xs with
  | [a; b] => inr (a, b)
  | [] | [_] => inl (ValueError "not enough values to unpack")
  | _ => inl (ValueError "too many values to unpack")
  end.

(** The length of the shortest row (0 for no rows). *)
Definition shortest {A} (rows : list (list A)) : nat :=
  match rows with
  | [] => 0%nat
  | r :: rs => foldr (λ r' n, (length r' `min` n)%nat) (length r) rs
  end.

Section Interface.
Context {LL Out : Type}.

(** What the adapter calls of [coh.serving.LMClient]. *)
Record LMClient : Type := {
  client_greedy_until : list string → list string → Out;
  client_loglikelihood_rolling : list (list string) → list LL * list bool;
  client_loglikelihood : list string → list string → list LL * list bool;
}.

Variable lm_client : LMClient.

(** [LMEvalHarnessInterface.greedy_until] *)
Definition greedy_until (inputs : list (list string)) : exn + Out :=
  match unpack2 (zip_star inputs) with
  | inl e => inl e
  | inr (prefix, until) => inr (client_greedy_until lm_client prefix until)
  end.

(** [LMEvalHarnessInterface.loglikelihood_rolling] *)
Definition loglikelihood_rolling (inputs : list (list string))
  : list (LL * bool) :=
  let '(loglikelihoods, is_greedys) :=
    client_loglikelihood_rolling lm_client inputs in
  zip loglikelihoods is_greedys.

(** [LMEvalHarnessInterface.loglikelihood] *)
Definition loglikelihood (inputs : list (list string))
  : exn + list (LL * bool) :=
  match unpack2 (zip_star inputs) with
  | inl e => inl e
  | inr (prefix, text) =>
      let '(loglikelihoods, is_greedys) :=
        client_loglikelihood lm_client prefix text in
      inr (zip loglikelihoods is_greedys)
  end.

End Interface.

End Harness.

Module ToyHarness.

(** A client that scores a request by the length of its text and flags
    the requests whose prefix is empty. *)
Definition client : @Harness.LMClient nat (list string) :=
  {| Harness.client_greedy_until := λ prefix until, prefix ++ until;
     Harness.client_loglikelihood_rolling := λ inputs,
       (length <$> inputs, (λ r, bool_decide (r = [])) <$> inputs);
     Harness.client_loglikelihood := λ prefix text,
       (String.length <$> text, (λ p, bool_decide (p = "")) <$> prefix) |}.

Definition requests : list (string * string) :=
  [("The sky is", " blue"); ("", " green"); ("Two plus two is", " four")].

End ToyHarness.

(** * Properties *)

Section Properties.
Context `{W : World}.

(** ** Bookkeeping lemmas for the two monads *)

Lemma M_bind_inr {A B} (f : A → M B) (t : list event) (a : A) :
  mbind (M := M) f (t, inr a) = ((t ++ (f a).1)%list, (f a).2).
Proof. reflexivity. Qed.

Lemma M_bind_inl {A B} (f : A → M B) (t : list event) (e : exn) :
  mbind (M := M) f (t, inl e) = (t, inl e).
Proof. reflexivity. Qed.

Lemma bind_lift_inr {A B} (f : A → M B) (a : A) :
  mbind (M := M) f (lift (inr a)) = f a.
Proof. unfold lift. rewrite M_bind_inr. by destruct (f a). Qed.

Lemma bind_lift_inl {A B} (f : A → M B) (e : exn) :
  mbind (M := M) f (lift (inl e)) = ([], inl e).
Proof. reflexivity. Qed.

Lemma bind_ret {A B} (f : A → M B) (a : A) :
  mbind (M := M) f (mret a) = f a.
Proof. apply bind_lift_inr. Qed.

Lemma bind_raise {A B} (f : A → M B) (e : exn) :
  mbind (M := M) f (raise e) = ([], inl e).
Proof. reflexivity. Qed.

Lemma bind_emit {B} (f : unit → M B) (e : event) :
  mbind (M := M) f (emit e) = (e :: (f tt).1, (f tt).2).
Proof. reflexivity. Qed.

Create Rewrite HintDb driver.
#[local] Hint Rewrite @bind_lift_inr @bind_lift_inl @bind_ret @bind_raise @bind_emit
  : driver.

Ltac mstep :=
  repeat first
    [ rewrite bind_lift_inr | rewrite bind_lift_inl | rewrite bind_ret
    | rewrite bind_raise | rewrite bind_emit
    | rewrite M_bind_inr | rewrite M_bind_inl
    | progress cbn [fst snd mret M_ret] ].

Lemma tree_map2_same_keys f (a b : PyTree) :
  a.*1 = b.*1 →
  tree_map2 f a b = inr (zip_with (λ x y, (x.1, f x.2 y.2)) a b).
Proof. intros H. unfold tree_map2. by rewrite decide_True. Qed.

Lemma value_and_grad_keys f g p b :
  (value_and_grad f g p b).1.2.*1 = p.*1.
Proof.
  unfold value_and_grad. destruct (f g p b) as [[l a] g']. simpl.
  rewrite <- list_fmap_compose. done.
Qed.

(** ** The gradient that reaches the optimizer *)

Lemma combine_grads_lookup env (p : PyTree) (F G : string → Tensor) i k t :
  p !! i = Some (k, t) →
  zip_with (λ x y : string * Tensor,
              (x.1, tensor_add x.2
                      (tensor_mul_scalar y.2 (pt_loss_weight (FLAGS env)))))
           ((λ kv, (kv.1, F kv.1)) <$> p) ((λ kv, (kv.1, G kv.1)) <$> p) !! i
  = Some (k, tensor_add (F k)
               (tensor_mul_scalar (G k) (pt_loss_weight (FLAGS env)))).
Proof.
  intros Hp. rewrite lookup_zip_with, !list_lookup_fmap, Hp. reflexivity.
Qed.

(** C1. One training step hands the optimizer, for every parameter leaf,
    the gradient on the hf batch plus [pt_loss_weight] times the gradient
    on the pt batch, both taken at the current parameters; the step always
    succeeds.  Multiplying an array by a float is taken to commute. *)
Theorem train_step_applies_combined_grads env ts rng hf_batch pt_batch
    (Hcomm : ∀ (w : Scalar) (t : Tensor),
        scalar_mul_tensor w t = tensor_mul_scalar t w) :
  ∃ grads rng' metrics,
    train_step env ts rng hf_batch pt_batch
      = inr (apply_gradients env ts grads, rng', metrics)
    ∧ grads.*1 = (params ts).*1
    ∧ ∀ i k t, params ts !! i = Some (k, t) →
        grads !! i =
          Some (k, tensor_add
                     (batch_grad env rng (params ts) hf_batch k)
                     (scalar_mul_tensor (pt_loss_weight (FLAGS env))
                        (batch_grad env
                           (loss_and_accuracy env rng (params ts) hf_batch).2
                           (params ts) pt_batch k))).
Proof.
  unfold train_step, combine_grads, value_and_grad.
  destruct (loss_and_accuracy env rng (params ts) hf_batch)
    as [[hf_loss hf_accuracy] g1] eqn:Hhf.
  destruct (loss_and_accuracy env g1 (params ts) pt_batch)
    as [[pt_loss pt_accuracy] g2] eqn:Hpt.
  rewrite tree_map2_same_keys
    by (rewrite <- !list_fmap_compose; reflexivity).
  cbn [mbind exn_bind mret exn_ret].
  eexists _, _, _. split; [reflexivity|]. split.
  - apply list_eq. intros i.
    rewrite !list_lookup_fmap, lookup_zip_with, !list_lookup_fmap.
    destruct (params ts !! i); reflexivity.
  - intros i k t Hp. rewrite Hcomm. simpl.
    apply (combine_grads_lookup env (params ts)
             (batch_grad env rng (params ts) hf_batch)
             (batch_grad env g1 (params ts) pt_batch) i k t Hp).
Qed.

(** ** Evaluation steps *)

Lemma eval_step_returns_enclosing env ts rng hf_batch pt_batch m :
  ∃ rng', eval_step env ts rng hf_batch pt_batch (Some m) = inr (rng', m).
Proof.
  unfold eval_step.
  destruct (loss_and_accuracy env rng (params ts) hf_batch) as [[? ?] g1].
  destruct (loss_and_accuracy env g1 (params ts) pt_batch) as [[? ?] g2].
  destruct (JaxRNG_call g2) as [out g3]. by eexists.
Qed.

(** With enough held-out batches the evaluation loop runs to its end; each
    of its steps hands back the metrics of [main] it was given. *)
Lemma eval_loop_ok env n : ∀ s m acc,
  (n ≤ length (hf_eval_iterator s))%nat →
  (n ≤ length (pt_eval_iterator s))%nat →
  ∃ s', eval_loop env n s m acc
        = (replicate n (EvEvalStep m), inr (s', acc ++ replicate n m))
      ∧ train_state s' = train_state s
      ∧ hf_eval_iterator s' = drop n (hf_eval_iterator s)
      ∧ pt_eval_iterator s' = drop n (pt_eval_iterator s).
Proof.
  induction n as [|n IH]; intros s m acc Hhf Hpt.
  - exists s. simpl. rewrite app_nil_r. by destruct s.
  - destruct s as [ts rng [|hb hf_it] [|pb pt_it]]; simpl in Hhf, Hpt; try lia.
    destruct (eval_step_returns_enclosing env ts rng hb pb m) as [rng' Hstep].
    destruct (IH {| train_state := ts; sharded_rng := rng';
                    hf_eval_iterator := hf_it; pt_eval_iterator := pt_it |}
                 m (acc ++ [m])) as (s' & Hrun & Hts & Hh & Hp);
      [simpl; lia | simpl; lia |].
    exists s'. split; [|by simpl in *].
    cbn [eval_loop hf_eval_iterator pt_eval_iterator train_state sharded_rng
         py_next].
    rewrite !bind_lift_inr, Hstep, bind_lift_inr, bind_emit, Hrun.
    cbn [fst snd replicate]. by rewrite <- app_assoc.
Qed.

(** C8. Whatever number of evaluation steps runs, the train state of
    [main] afterwards (parameters, optimizer state and step counter) is
    the one from before. *)
Theorem eval_steps_leave_train_state env n : ∀ s m acc tr s' l,
  eval_loop env n s m acc = (tr, inr (s', l)) →
  train_state s' = train_state s.
Proof.
  induction n as [|n IH]; intros s m acc tr s' l Hrun.
  - simpl in Hrun. by inversion Hrun.
  - destruct s as [ts rng [|hb hf_it] [|pb pt_it]];
      cbn [eval_loop hf_eval_iterator pt_eval_iterator train_state
           sharded_rng py_next] in Hrun;
      autorewrite with driver in Hrun; try discriminate.
    destruct (eval_step_returns_enclosing env ts rng hb pb m) as [rng' Hstep].
    rewrite Hstep in Hrun. autorewrite with driver in Hrun.
    cbn [fst snd] in Hrun.
    destruct (eval_loop env n _ m (acc ++ [m])) as [tr1 [e|[s1 l1]]] eqn:Hrec;
      cbn [fst snd] in Hrun; [discriminate|].
    apply IH in Hrec. inversion Hrun; subst. exact Hrec.
Qed.

(** ** What gets logged *)

Lemma train_step_total env ts rng hf_batch pt_batch :
  ∃ ts' rng' m,
    train_step env ts rng hf_batch pt_batch = inr (ts', rng', m)
    ∧ step ts' = step ts + 1
    ∧ dom m = train_metric_keys.
Proof.
  unfold train_step, combine_grads, value_and_grad.
  destruct (loss_and_accuracy env rng (params ts) hf_batch) as [[? ?] g1].
  destruct (loss_and_accuracy env g1 (params ts) pt_batch) as [[? ?] g2].
  rewrite tree_map2_same_keys
    by (rewrite <- !list_fmap_compose; reflexivity).
  cbn [mbind exn_bind mret exn_ret].
  eexists _, _, _. split; [reflexivity|]. split.
  - unfold apply_gradients. by destruct (tx_update _ _ _ _).
  - rewrite !dom_insert_L, dom_empty_L. unfold train_metric_keys. set_solver.
Qed.

Lemma dom_average_metrics (m : gmap string Scalar) ms :
  dom (average_metrics (m :: ms)) = dom m.
Proof.
  apply set_eq. intros k. rewrite !elem_of_dom. unfold average_metrics.
  rewrite map_lookup_imap. destruct (m !! k); simpl; split; intros [? ?]; eauto; done.
Qed.

Lemma eval_keys_not_train_keys k :
  k ∈ eval_metric_keys → k ∉ ({["step"]} ∪ train_metric_keys : gset string).
Proof.
  unfold eval_metric_keys, train_metric_keys.
  rewrite !elem_of_union, !elem_of_singleton.
  intros H1 H2.
  repeat match goal with H : _ ∨ _ |- _ => destruct H end; subst; discriminate.
Qed.

(** C2. At a logging step with [eval_steps > 0] and enough held-out
    batches, the evaluation steps run, but each returns the training
    metrics of [main] instead of its own [eval_*] dict, and the emitted log
    record has exactly the key [step] and the training keys: none of the
    evaluation keys is in it. *)
Theorem eval_metrics_never_reach_log env s i hf_batch pt_batch
    (Hfreq : log_freq (FLAGS env) ≠ 0)
    (Hlog : i `mod` log_freq (FLAGS env) = 0)
    (Hev : 0 < eval_steps (FLAGS env))
    (Hhf : eval_steps (FLAGS env) ≤ Z.of_nat (length (hf_eval_iterator s)))
    (Hpt : eval_steps (FLAGS env) ≤ Z.of_nat (length (pt_eval_iterator s))) :
  ∃ ts rng m s' enabled record,
    train_step env (train_state s) (sharded_rng s) hf_batch pt_batch
      = inr (ts, rng, m)
    ∧ log_phase env i
        {| train_state := ts; sharded_rng := rng;
           hf_eval_iterator := hf_eval_iterator s;
           pt_eval_iterator := pt_eval_iterator s |} m
      = (replicate (Z.to_nat (eval_steps (FLAGS env))) (EvEvalStep m)
           ++ [EvLog enabled record], inr s')
    ∧ dom record = {["step"]} ∪ train_metric_keys
    ∧ ∀ k, k ∈ eval_metric_keys → record !! k = None.
Proof.
  destruct (train_step_total env (train_state s) (sharded_rng s)
              hf_batch pt_batch) as (ts & rng & m & Hstep & _ & Hdom).
  set (s1 := {| train_state := ts; sharded_rng := rng;
                hf_eval_iterator := hf_eval_iterator s;
                pt_eval_iterator := pt_eval_iterator s |}).
  destruct (eval_loop_ok env (Z.to_nat (eval_steps (FLAGS env))) s1 m [])
    as (s' & Hrun & _); [simpl; lia | simpl; lia |].
  rewrite app_nil_l in Hrun.
  assert (Hrec : dom (dict_update ({["step" := PyInt i]} : gmap string pyval)
                   (PyFloat <$> dict_update m
                      (average_metrics
                         (replicate (Z.to_nat (eval_steps (FLAGS env))) m))))
                 = {["step"]} ∪ train_metric_keys).
  { unfold dict_update.
    destruct (Z.to_nat (eval_steps (FLAGS env))) as [|k] eqn:Hk; [lia|].
    cbn [replicate].
    rewrite dom_union_L, dom_fmap_L, dom_union_L, dom_average_metrics,
      dom_singleton_L, Hdom.
    set_solver. }
  eexists ts, rng, m, s', _, _. split; [exact Hstep|]. split; [|split].
  - unfold log_phase, py_mod.
    rewrite (decide_False (P := log_freq (FLAGS env) = 0)) by exact Hfreq.
    rewrite bind_lift_inr.
    rewrite (decide_True (P := i `mod` log_freq (FLAGS env) = 0))
      by exact Hlog.
    rewrite (decide_True (P := 0 < eval_steps (FLAGS env))) by exact Hev.
    fold s1. rewrite Hrun. mstep.
    rewrite !app_nil_r. reflexivity.
  - exact Hrec.
  - intros k Hk. apply not_elem_of_dom. rewrite Hrec.
    by apply eval_keys_not_train_keys.
Qed.

(** ** Checkpoint calls *)

Lemma save_checkpoint_calls env ts milestone :
  save_calls (save_checkpoint env ts milestone).1 = [(step ts, milestone)].
Proof.
  unfold save_checkpoint. destruct (gptj_config env); simpl; mstep; reflexivity.
Qed.

Lemma save_checkpoint_unbound env ts milestone :
  gptj_config env = None →
  save_checkpoint env ts milestone
  = ([EvSaveCheckpoint (step ts) milestone], inl (NameError "gptj_config")).
Proof. intros H. unfold save_checkpoint. rewrite H. simpl. by mstep. Qed.

Lemma save_checkpoint_bound env ts milestone c :
  gptj_config env = Some c →
  save_checkpoint env ts milestone
  = ([EvSaveCheckpoint (step ts) milestone;
      EvSaveAll (bool_decide (process_index env = 0)) ts
        {| md_step := step ts; md_variant := variant env;
           md_flags := flags_config_dict env; md_gptj_config := c |}
        milestone], inr tt).
Proof. intros H. unfold save_checkpoint. rewrite H. simpl. by mstep. Qed.

Lemma build_model_opt flags tokenizer_var tr k c g o :
  model flags = "opt" →
  build_model flags tokenizer_var = (tr, inr (k, c, g, o)) →
  k = OPT ∧ g = None ∧ o = Some c.
Proof.
  intros Hm. unfold build_model. rewrite Hm.
  rewrite decide_False by discriminate. rewrite decide_True by reflexivity.
  destruct (make_config _ _ _ _ _) as [t [e|c']]; mstep; intros H;
    inversion H; by subst.
Qed.

(** C3. With [FLAGS.model = 'opt'] the model setup leaves [gptj_config]
    unassigned, and every call of [save_checkpoint] stops at the metadata
    with a [NameError], before [checkpointer.save_all] is reached. *)
Theorem opt_save_checkpoint_raises flags tokenizer_var tr k c g o env ts
    milestone :
  model flags = "opt" →
  build_model flags tokenizer_var = (tr, inr (k, c, g, o)) →
  gptj_config env = g →
  save_checkpoint env ts milestone
  = ([EvSaveCheckpoint (step ts) milestone], inl (NameError "gptj_config")).
Proof.
  intros Hm Hb Hg. destruct (build_model_opt _ _ _ _ _ _ _ Hm Hb) as (_ & -> & _).
  by apply save_checkpoint_unbound.
Qed.

(** C4. At a step where the milestone and the rolling interval are both
    enabled and both divide [step + 1], the loop body calls
    [save_checkpoint] once, with [milestone=True]. *)
Theorem milestone_takes_priority env i s
    (Hm : 0 < save_milestone_freq (FLAGS env))
    (Hr : 0 < save_model_freq (FLAGS env))
    (Hdm : (save_milestone_freq (FLAGS env) | i + 1))
    (Hdr : (save_model_freq (FLAGS env) | i + 1)) :
  save_phase env i s = save_checkpoint env (train_state s) true
  ∧ save_calls (save_phase env i s).1 = [(step (train_state s), true)].
Proof.
  assert (Heq : save_phase env i s = save_checkpoint env (train_state s) true).
  { unfold save_phase. rewrite decide_True; [reflexivity|].
    split; [exact Hm|]. apply Z.mod_divide; [lia | exact Hdm]. }
  split; [exact Heq|]. rewrite Heq. apply save_checkpoint_calls.
Qed.

(** ** Restoring *)

(** C7. When only parameters were restored ([restored_params] set,
    [train_state] still [None]), the train state of the run holds exactly
    those parameters, the optimizer state made from them by [tx.init], and
    step 0; the loop then counts from 0. *)
Theorem restored_params_start_at_step_zero env g tr p :
  load_source env = (tr, inr (None, Some p)) →
  ∃ ts, restore env g = (tr, inr (ts, g))
      ∧ params ts = p
      ∧ opt_state ts = tx_init (optimizer_var env) p
      ∧ step ts = 0
      ∧ py_range (step ts) (total_steps (FLAGS env))
        = (λ i : nat, Z.of_nat i) <$> seq 0 (Z.to_nat (total_steps (FLAGS env))).
Proof.
  intros H. eexists. split.
  - unfold restore. rewrite H. mstep. rewrite app_nil_r. reflexivity.
  - simpl. repeat split. unfold py_range.
    rewrite Z.sub_0_r. reflexivity.
Qed.

(** ** The training loop *)

Lemma train_steps_app (a b : list event) :
  train_steps (a ++ b) = train_steps a ++ train_steps b.
Proof. apply omap_app. Qed.

Lemma train_steps_replicate_eval n m :
  train_steps (replicate n (EvEvalStep m)) = [].
Proof. induction n; [reflexivity | exact IHn]. Qed.

Lemma length_zip3 {A B C} (a : list A) : ∀ (b : list B) (c : list C),
  length (zip3 a b c) = (length a `min` (length b `min` length c))%nat.
Proof.
  induction a as [|x a IH]; intros [|y b] [|z c]; simpl; rewrite ?IH; lia.
Qed.

Lemma zip3_fst {A B C} (a : list A) : ∀ (b : list B) (c : list C),
  (zip3 a b c).*1.*1 = take (length b `min` length c) a.
Proof.
  induction a as [|x a IH]; intros [|y b] [|z c]; simpl; try reflexivity.
  by rewrite IH.
Qed.

Lemma length_py_range a b : length (py_range a b) = Z.to_nat (b - a).
Proof. unfold py_range. by rewrite length_fmap, length_seq. Qed.

Lemma save_phase_ok env i s :
  saves_ok env →
  ∃ tr, save_phase env i s = (tr, inr tt) ∧ train_steps tr = [].
Proof.
  intros [[c Hc]|[H1 H2]]; unfold save_phase.
  - repeat case_decide; rewrite ?(save_checkpoint_bound _ _ _ _ Hc);
      eexists; split; reflexivity.
  - rewrite !decide_False by lia. by eexists.
Qed.

(** ** Independence of the host *)

Lemma obs_bind {A B} (m1 m2 : M A) (f1 f2 : A → M B) :
  obs m1 = obs m2 → (∀ a, obs (f1 a) = obs (f2 a)) →
  obs (m1 ≫= f1) = obs (m2 ≫= f2).
Proof.
  destruct m1 as [t1 [e1|a1]], m2 as [t2 [e2|a2]]; unfold obs;
    cbn [fst snd]; intros [= Ht Hr] Hf; subst; try discriminate.
  - rewrite !M_bind_inl. cbn [fst snd]. by rewrite Ht.
  - rewrite !M_bind_inr. cbn [fst snd]. specialize (Hf a2).
    injection Hf as H1 H2. by rewrite !fmap_app, Ht, H1, H2.
Qed.

Lemma train_steps_erase_host tr :
  train_steps (erase_host <$> tr) = train_steps tr.
Proof.
  unfold train_steps.
  induction tr as [|e tr IH]; [reflexivity|].
  destruct e; csimpl; by rewrite IH.
Qed.

Lemma eval_loop_on_host env pidx n s m acc :
  eval_loop (on_host env pidx) n s m acc = eval_loop env n s m acc.
Proof. reflexivity. Qed.

Lemma save_checkpoint_on_host env pidx ts milestone :
  obs (save_checkpoint (on_host env pidx) ts milestone)
  = obs (save_checkpoint env ts milestone).
Proof.
  unfold save_checkpoint. cbn [on_host gptj_config variant flags_config_dict
                               process_index].
  destruct (gptj_config env); reflexivity.
Qed.

Lemma log_phase_on_host env pidx i s m :
  obs (log_phase (on_host env pidx) i s m) = obs (log_phase env i s m).
Proof.
  unfold log_phase. cbn [on_host FLAGS process_index].
  apply obs_bind; [reflexivity|]. intros r.
  case_decide; [|reflexivity].
  apply obs_bind.
  - case_decide; [|reflexivity]. by rewrite eval_loop_on_host.
  - intros [s' m']. reflexivity.
Qed.

Lemma save_phase_on_host env pidx i s :
  obs (save_phase (on_host env pidx) i s) = obs (save_phase env i s).
Proof.
  unfold save_phase. cbn [on_host FLAGS].
  repeat case_decide; try reflexivity; apply save_checkpoint_on_host.
Qed.

Lemma loop_body_on_host env pidx s item :
  obs (loop_body (on_host env pidx) s item) = obs (loop_body env s item).
Proof.
  destruct item as [[i hb] pb]. unfold loop_body.
  apply obs_bind; [reflexivity|]. intros [[ts rng] m].
  apply obs_bind; [reflexivity|]. intros _.
  apply obs_bind; [apply log_phase_on_host|]. intros s'.
  apply obs_bind; [apply save_phase_on_host|]. reflexivity.
Qed.

Lemma train_loop_on_host env pidx items : ∀ s,
  obs (train_loop (on_host env pidx) s items) = obs (train_loop env s items).
Proof.
  induction items as [|item items IH]; intros s; [reflexivity|].
  cbn [train_loop]. apply obs_bind; [apply loop_body_on_host|]. exact IH.
Qed.

Lemma run_on_host env pidx ts0 g hf pt hfe pte :
  obs (run (on_host env pidx) ts0 g hf pt hfe pte)
  = obs (run env ts0 g hf pt hfe pte).
Proof.
  unfold run. cbn [on_host FLAGS]. destruct (next_rng g) as [rng g'].
  apply obs_bind.
  { case_decide; [apply save_checkpoint_on_host|reflexivity]. }
  intros _. apply obs_bind; [apply train_loop_on_host|]. intros s.
  apply obs_bind; [|reflexivity].
  case_decide; [apply save_checkpoint_on_host|reflexivity].
Qed.

Lemma restore_on_host env pidx g :
  restore (on_host env pidx) g = restore env g.
Proof. reflexivity. Qed.

Lemma init_fn_on_host env pidx g :
  init_fn (on_host env pidx) g = init_fn env g.
Proof. reflexivity. Qed.

Lemma after_model_on_host env pidx g0 hf pt hfe pte :
  obs (let '(rng, global_rng) := next_rng g0 in
       (if match_partition_rules (init_fn (on_host env pidx) rng)
        then emit (EvResolvePartition (config (on_host env pidx)))
        else raise (ValueError "Partition rule not found"));;
       '(ts0, global_rng) ← restore (on_host env pidx) global_rng;
       run (on_host env pidx) ts0 global_rng hf pt hfe pte)
  = obs (let '(rng, global_rng) := next_rng g0 in
       (if match_partition_rules (init_fn env rng)
        then emit (EvResolvePartition (config env))
        else raise (ValueError "Partition rule not found"));;
       '(ts0, global_rng) ← restore env global_rng;
       run env ts0 global_rng hf pt hfe pte).
Proof.
  destruct (next_rng g0) as [rng g].
  rewrite init_fn_on_host.
  apply obs_bind; [reflexivity|]. intros _.
  rewrite restore_on_host.
  apply obs_bind; [reflexivity|]. intros [ts0 g'].
  apply run_on_host.
Qed.

Lemma main_on_host flags pidx1 pidx2 :
  obs (main flags pidx1) = obs (main flags pidx2).
Proof.
  unfold main.
  apply obs_bind; [reflexivity|]. intros [[hf pt] tok].
  apply obs_bind; [reflexivity|]. intros _.
  destruct (load_eval_iterators flags hf pt) as [hfe pte].
  apply obs_bind; [reflexivity|]. intros _.
  apply obs_bind; [reflexivity|]. intros [[[k c] gc] oc].
  exact (after_model_on_host
           (@Build_Env _ flags pidx2 (get_user_flags flags)
              (user_flags_to_config_dict flags) k c gc oc
              (get_optimizer (optimizer flags)) (seq_length hf))
           pidx1 (set_random_seed (seed flags)) hf pt hfe pte).
Qed.
Lemma obs_train_steps {A} (m1 m2 : M A) :
  obs m1 = obs m2 → train_steps m1.1 = train_steps m2.1.
Proof.
  destruct m1 as [t1 r1], m2 as [t2 r2]. unfold obs. cbn [fst snd].
  intros [= Ht _].
  by rewrite <- (train_steps_erase_host t1), <- (train_steps_erase_host t2), Ht.
Qed.

(** C9. The sequence of per-step training metrics of a run is determined
    by the flags (seed included) and the data behind them: two runs of the
    same configuration over the same data, on whichever hosts, return the
    same metrics at every step. *)
Theorem train_metrics_deterministic flags pidx1 pidx2 :
  train_steps (main flags pidx1).1 = train_steps (main flags pidx2).1.
Proof. apply obs_train_steps, main_on_host. Qed.

(** ** Startup *)

Lemma load_train_datasets_silent flags : (load_train_datasets flags).1 = [].
Proof.
  unfold load_train_datasets. repeat case_decide; try reflexivity.
  destruct (split_char _ _) as [|? [|? [|? ?]]]; reflexivity.
Qed.

Lemma main_assertion flags pidx hf pt tok :
  load_train_datasets flags = ([], inr (hf, pt, tok)) →
  seq_length hf ≠ seq_length pt →
  main flags pidx
  = ([EvLoadTrainData hf pt],
     inl (AssertionError
            "HF and PT datasets must have the same sequence length.")).
Proof.
  intros Hload Hne. unfold main. rewrite Hload. mstep.
  destruct (load_eval_iterators flags hf pt) as [hfe pte].
  rewrite (decide_False (P := seq_length hf = seq_length pt)) by exact Hne.
  by mstep.
Qed.

(** C10. Once the two training datasets are loaded, a difference in their
    sequence lengths makes [main] raise the [AssertionError] right after
    loading: nothing else has happened by then (no model construction, no
    partition resolution, no training step).  So a run in which anything
    happens past the loading has equal sequence lengths. *)
Theorem seq_length_mismatch_fails_at_startup flags pidx tr hf pt tok :
  load_train_datasets flags = (tr, inr (hf, pt, tok)) →
  (seq_length hf ≠ seq_length pt →
   main flags pidx
   = ([EvLoadTrainData hf pt],
      inl (AssertionError
             "HF and PT datasets must have the same sequence length.")))
  ∧ ((∃ e, e ∈ (main flags pidx).1 ∧ past_startup e = true) →
     seq_length hf = seq_length pt).
Proof.
  intros Hload.
  pose proof (load_train_datasets_silent flags) as Hsilent.
  rewrite Hload in Hsilent. simpl in Hsilent. subst tr.
  split; [exact (main_assertion flags pidx hf pt tok Hload)|].
  intros (e & Hin & Hpast).
  destruct (decide (seq_length hf = seq_length pt)) as [Heq|Hne]; [exact Heq|].
  rewrite (main_assertion flags pidx hf pt tok Hload Hne) in Hin.
  apply list_elem_of_singleton in Hin. subst e. discriminate.
Qed.

End Properties.

(** * Further properties of the driver *)

Section Startup.
Context `{W : World}.

Ltac mstep :=
  repeat first
    [ rewrite bind_lift_inr | rewrite bind_lift_inl | rewrite bind_ret
    | rewrite bind_raise | rewrite bind_emit
    | rewrite M_bind_inr | rewrite M_bind_inl
    | progress cbn [fst snd mret M_ret] ].

(** ** [FLAGS.load_dataset_state] *)

Lemma split_char_nonempty c s : split_char c s ≠ [].
Proof.
  destruct s as [|a s]; simpl; [discriminate|].
  case_decide; [discriminate|]. by destruct (split_char c s).
Qed.

Lemma length_split_char c s :
  length (split_char c s) = S (count_char c s).
Proof.
  induction s as [|a s IH]; [reflexivity|]. simpl.
  case_decide; simpl; [by rewrite IH|].
  destruct (split_char c s) as [|h t] eqn:Hs; [by destruct (split_char_nonempty c s)|].
  simpl in *. exact IH.
Qed.

Lemma split_char_single c s b : split_char c s = [b] → s = b ∧ count_char c s = 0%nat.
Proof.
  revert b. induction s as [|a s IH]; intros b; simpl.
  - by intros [= <-].
  - case_decide as Hac.
    + intros [= _ H]. by destruct (split_char_nonempty c s).
    + destruct (split_char c s) as [|h t] eqn:Hs;
        [by destruct (split_char_nonempty c s)|].
      intros [= <- ->]. destruct (IH h eq_refl) as [-> Hc]. by rewrite Hc.
Qed.

Lemma split_char_pair c s a b :
  split_char c s = [a; b] →
  s = a +:+ String c b ∧ count_char c a = 0%nat ∧ count_char c b = 0%nat.
Proof.
  revert a. induction s as [|x s IH]; intros a; simpl; [discriminate|].
  case_decide as Hxc.
  - intros [= <- H]. subst x. destruct (split_char_single c s b H) as [-> Hc].
    by rewrite Hc.
  - destruct (split_char c s) as [|h t] eqn:Hs;
      [by destruct (split_char_nonempty c s)|].
    intros [= <- ->]. destruct (IH h eq_refl) as (-> & Hh & Hb).
    simpl. rewrite decide_False by exact Hxc. by rewrite Hh, Hb.
Qed.

(** X1. A non-empty [load_dataset_state] that does not hold exactly one
    comma makes [main] raise [ValueError] at the unpacking, before any
    dataset is loaded. *)
Theorem dataset_state_needs_two_paths flags pidx :
  load_dataset_state flags ≠ "" →
  count_char "," (load_dataset_state flags) ≠ 1%nat →
  main flags pidx
  = ([], inl (ValueError "wrong number of values to unpack")).
Proof.
  intros Hne Hcount.
  assert (Hload : load_train_datasets flags
                  = ([], inl (ValueError "wrong number of values to unpack"))).
  { unfold load_train_datasets. rewrite decide_True by exact Hne.
    pose proof (length_split_char "," (load_dataset_state flags)) as Hlen.
    destruct (split_char "," (load_dataset_state flags))
      as [|a [|b [|? ?]]]; try reflexivity.
    simpl in Hlen. congruence. }
  unfold main. rewrite Hload. by mstep.
Qed.

(** X2. With exactly one comma in [load_dataset_state], the two training
    datasets are the pickles at the text before and the text after the
    comma, whatever the dataset flags say, and no tokenizer is created. *)
Theorem dataset_state_loads_both_pickles flags :
  load_dataset_state flags ≠ "" →
  count_char "," (load_dataset_state flags) = 1%nat →
  ∃ a b, load_dataset_state flags = a +:+ "," +:+ b
    ∧ count_char "," a = 0%nat ∧ count_char "," b = 0%nat
    ∧ load_train_datasets flags
      = ([], inr (load_pickle a, load_pickle b, None)).
Proof.
  intros Hne Hcount. unfold load_train_datasets.
  rewrite decide_True by exact Hne.
  pose proof (length_split_char "," (load_dataset_state flags)) as Hlen.
  rewrite Hcount in Hlen.
  destruct (split_char "," (load_dataset_state flags))
    as [|a [|b [|? ?]]] eqn:Hs; try discriminate.
  destruct (split_char_pair _ _ _ _ Hs) as (Heq & Ha & Hb).
  exists a, b. by repeat split.
Qed.

Lemma load_state_no_tokenizer flags tr hf pt tok :
  load_dataset_state flags ≠ "" →
  load_train_datasets flags = (tr, inr (hf, pt, tok)) →
  tr = [] ∧ tok = None.
Proof.
  intros Hne. unfold load_train_datasets. rewrite decide_True by exact Hne.
  destruct (split_char _ _) as [|a [|b [|? ?]]]; try discriminate.
  by intros [= <- <- <- <-].
Qed.

Lemma make_config_unbound k load_from update kwargs :
  make_config k load_from update kwargs None
  = ([], inl (match configured k load_from update kwargs with
              | inl e => e
              | inr _ => UnboundLocalError "tokenizer"
              end)).
Proof.
  unfold make_config.
  destruct (configured k load_from update kwargs) as [e|c]; simpl; by mstep.
Qed.

(** X3. Datasets restored through [load_dataset_state] leave the variable
    [tokenizer] of [main] unassigned: with a supported model and equal
    sequence lengths, [main] stops right after the datasets are loaded and
    never constructs the model.  It raises what evaluating the model's
    update string raises, if that fails, and [UnboundLocalError] at the
    BOS/EOS update otherwise. *)
Theorem dataset_state_breaks_model_setup flags pidx tr hf pt tok k :
  load_dataset_state flags ≠ "" →
  load_train_datasets flags = (tr, inr (hf, pt, tok)) →
  seq_length hf = seq_length pt →
  (model flags = "gptj" ∧ k = GPTJ) ∨ (model flags = "opt" ∧ k = OPT) →
  main flags pidx
  = ([EvLoadTrainData hf pt],
     inl (match flag_config flags k with
          | inl e => e
          | inr _ => UnboundLocalError "tokenizer"
          end)).
Proof.
  intros Hne Hload Hseq Hmodel.
  destruct (load_state_no_tokenizer _ _ _ _ _ Hne Hload) as [-> ->].
  unfold main. rewrite Hload. mstep.
  destruct (load_eval_iterators flags hf pt) as [hfe pte].
  rewrite (decide_True (P := seq_length hf = seq_length pt)) by exact Hseq.
  mstep. unfold build_model.
  destruct Hmodel as [[Hm ->]|[Hm ->]]; rewrite Hm.
  - rewrite decide_True by reflexivity.
    rewrite make_config_unbound. by mstep.
  - rewrite decide_False by discriminate. rewrite decide_True by reflexivity.
    rewrite make_config_unbound. by mstep.
Qed.

(** ** [FLAGS.model] *)

Lemma build_model_unknown flags tokenizer_var :
  model flags ≠ "gptj" → model flags ≠ "opt" →
  build_model flags tokenizer_var = ([], inl (ValueError "Unknown model")).
Proof.
  intros H1 H2. unfold build_model. by rewrite !decide_False.
Qed.

(** X4. With a model name other than 'gptj' and 'opt', [main] always ends
    in an exception ([ValueError] or, for restored datasets of unequal
    sequence length, [AssertionError]) and nothing past the dataset loading
    happens: no model is constructed and no step is trained. *)
Theorem unknown_model_never_trains flags pidx :
  model flags ≠ "gptj" → model flags ≠ "opt" →
  ∃ e, (main flags pidx).2 = inl e
     ∧ (∃ msg, e = ValueError msg ∨ e = AssertionError msg)
     ∧ ∀ ev, ev ∈ (main flags pidx).1 → past_startup ev = false.
Proof.
  intros H1 H2. unfold main.
  destruct (load_train_datasets flags) as [tr [e|[[hf pt] tok]]] eqn:Hload.
  - mstep. exists e. split; [reflexivity|].
    pose proof (load_train_datasets_silent flags) as Hs.
    rewrite Hload in Hs. simpl in Hs. subst tr. split.
    + revert Hload. unfold load_train_datasets.
      case_decide.
      * destruct (split_char _ _) as [|a [|b [|? ?]]]; intros [= <-]; eauto.
      * rewrite !decide_False by assumption. mstep. intros [= <-]. eauto.
    + intros ev Hin. by apply elem_of_nil in Hin.
  - pose proof (load_train_datasets_silent flags) as Hs.
    rewrite Hload in Hs. simpl in Hs. subst tr. mstep.
    destruct (load_eval_iterators flags hf pt) as [hfe pte].
    destruct (decide (seq_length hf = seq_length pt)).
    + mstep. rewrite (build_model_unknown _ _ H1 H2). mstep.
      eexists. split; [reflexivity|]. split; [eauto|].
      intros ev Hin. apply list_elem_of_singleton in Hin. by subst.
    + mstep. eexists. split; [reflexivity|]. split; [eauto|].
      intros ev Hin. apply list_elem_of_singleton in Hin. by subst.
Qed.

Lemma make_config_bound k load_from update kwargs tok :
  match configured k load_from update kwargs with
  | inl e => make_config k load_from update kwargs (Some tok) = ([], inl e)
  | inr c0 =>
      ∃ c, make_config k load_from update kwargs (Some tok)
           = ([EvModelConstruct k c], inr c)
         ∧ bos_token_id c = tok_bos_token_id tok
         ∧ eos_token_id c = tok_eos_token_id tok
         ∧ vocab_size c = vocab_size c0 `max` tok_len tok
         ∧ config_rest c = config_rest c0
  end.
Proof.
  unfold make_config.
  destruct (configured k load_from update kwargs) as [e|c0]; simpl.
  - by mstep.
  - mstep. eexists. split; [reflexivity|].
    case_decide; simpl; repeat split; lia.
Qed.

(** X5. For a supported model and an assigned tokenizer, the model setup
    fails only when evaluating the update string raises, with that
    exception and before anything is constructed.  Otherwise it constructs
    one model, whose configuration takes its BOS and EOS ids from the
    tokenizer, has the larger of the configured vocabulary size and the
    tokenizer's length, and is otherwise as configured; only the variable
    of the chosen model family ([gptj_config] or [opt_config]) is
    assigned. *)
Theorem model_config_covers_tokenizer flags tok k :
  (model flags = "gptj" ∧ k = GPTJ) ∨ (model flags = "opt" ∧ k = OPT) →
  match flag_config flags k with
  | inl e => build_model flags (Some tok) = ([], inl e)
  | inr c0 =>
      ∃ c, build_model flags (Some tok)
           = ([EvModelConstruct k c],
              inr (k, c, match k with GPTJ => Some c | OPT => None end,
                   match k with GPTJ => None | OPT => Some c end))
        ∧ bos_token_id c = tok_bos_token_id tok
        ∧ eos_token_id c = tok_eos_token_id tok
        ∧ vocab_size c = vocab_size c0 `max` tok_len tok
        ∧ config_rest c = config_rest c0
  end.
Proof.
  intros [[Hm ->]|[Hm ->]]; unfold build_model, flag_config; rewrite Hm.
  - rewrite decide_True by reflexivity.
    pose proof (make_config_bound GPTJ (load_gptj_config flags)
                  (update_gptj_config flags) (gptj flags) tok) as H.
    destruct (configured GPTJ _ _ _) as [e|c0].
    + rewrite H. by mstep.
    + destruct H as (c & -> & Hrest). mstep. by exists c.
  - rewrite decide_False by discriminate. rewrite decide_True by reflexivity.
    pose proof (make_config_bound OPT (load_opt_config flags)
                  (update_opt_config flags) (opt flags) tok) as H.
    destruct (configured OPT _ _ _) as [e|c0].
    + rewrite H. by mstep.
    + destruct H as (c & -> & Hrest). mstep. by exists c.
Qed.

End Startup.

Section Restoring.
Context `{W : World}.

Ltac mstep :=
  repeat first
    [ rewrite bind_lift_inr | rewrite bind_lift_inl | rewrite bind_ret
    | rewrite bind_raise | rewrite bind_emit
    | rewrite M_bind_inr | rewrite M_bind_inl
    | progress cbn [fst snd mret M_ret] ].

Lemma prefix_drop_string sep : ∀ s,
  String.prefix sep s = true → s = sep +:+ drop_string (String.length sep) s.
Proof.
  induction sep as [|a sep IH]; intros s; [reflexivity|].
  destruct s as [|b s]; simpl; [discriminate|].
  destruct (Ascii.ascii_dec a b) as [->|]; [|discriminate].
  intros H.
  change (String b s = String b (sep +:+ drop_string (String.length sep) s)).
  f_equal. by apply IH.
Qed.

Lemma split_once_unfold sep s :
  split_once sep s
  = if String.prefix sep s
    then Some (EmptyString, drop_string (String.length sep) s)
    else match s with
         | EmptyString => None
         | String a s' =>
             match split_once sep s' with
             | Some (l, r) => Some (String a l, r)
             | None => None
             end
         end.
Proof. by destruct s. Qed.

Lemma split_once_some sep : ∀ s l r,
  split_once sep s = Some (l, r) → s = l +:+ sep +:+ r.
Proof.
  induction s as [|a s IH]; intros l r; rewrite split_once_unfold;
    destruct (String.prefix sep _) eqn:Hp.
  - intros [= <- <-]. by apply prefix_drop_string in Hp.
  - discriminate.
  - intros [= <- <-]. by apply prefix_drop_string in Hp.
  - destruct (split_once sep s) as [[l' r']|] eqn:Hs; [|discriminate].
    intros [= <- <-].
    change (String a s = String a (l' +:+ sep +:+ r')).
    f_equal. by apply IH.
Qed.

Lemma prefix_empty s : String.prefix "" s = true.
Proof. by destruct s. Qed.

Lemma prefix_append sep r : String.prefix sep (sep +:+ r) = true.
Proof.
  induction sep as [|a sep IH]; [apply prefix_empty|].
  change (String a sep +:+ r) with (String a (sep +:+ r)).
  cbn [String.prefix]. by destruct (Ascii.ascii_dec a a).
Qed.

Lemma split_once_none sep : ∀ s,
  split_once sep s = None → ∀ l r, s ≠ l +:+ sep +:+ r.
Proof.
  induction s as [|a s IH]; rewrite split_once_unfold;
    destruct (String.prefix sep _) eqn:Hp; try discriminate;
    intros Hnone l r Heq.
  - destruct l as [|b l]; [|discriminate].
    change ("" +:+ sep +:+ r) with (sep +:+ r) in Heq.
    by rewrite Heq, prefix_append in Hp.
  - destruct l as [|b l].
    + change ("" +:+ sep +:+ r) with (sep +:+ r) in Heq.
      by rewrite Heq, prefix_append in Hp.
    + change (String b l +:+ sep +:+ r)
        with (String b (l +:+ sep +:+ r)) in Heq.
      injection Heq as _ Heq.
      destruct (split_once sep s) as [[? ?]|] eqn:Hs; [discriminate|].
      by apply (IH eq_refl l r).
Qed.

(** X6. A non-empty [load_checkpoint] in which '::' does not occur makes
    the restoring step raise [ValueError] at the unpacking of the split,
    before any checkpoint is read. *)
Theorem load_checkpoint_needs_separator env :
  load_checkpoint (FLAGS env) ≠ "" →
  (∀ l r, load_checkpoint (FLAGS env) ≠ l +:+ "::" +:+ r) →
  ∀ g, restore env g = ([], inl (ValueError "not enough values to unpack")).
Proof.
  intros Hne Hno g. unfold restore, load_source.
  rewrite decide_True by exact Hne.
  destruct (split_once "::" (load_checkpoint (FLAGS env))) as [[l r]|] eqn:Hs.
  - by destruct (Hno l r (split_once_some _ _ _ _ Hs)).
  - by mstep.
Qed.

Lemma split_once_skip sep a s :
  String.prefix sep (String a s) = false →
  split_once sep (String a s)
  = match split_once sep s with
    | Some (l, r) => Some (String a l, r)
    | None => None
    end.
Proof. intros H. by rewrite split_once_unfold, H. Qed.

Lemma split_once_here sep s :
  String.prefix sep s = true →
  split_once sep s = Some (EmptyString, drop_string (String.length sep) s).
Proof. intros H. by rewrite split_once_unfold, H. Qed.

Lemma split_once_huggingface path :
  split_once "::" ("huggingface::" +:+ path) = Some ("huggingface", path).
Proof.
  change ("huggingface::" +:+ path)
    with (String "h" (String "u" (String "g" (String "g" (String "i"
          (String "n" (String "g" (String "f" (String "a" (String "c"
          (String "e" (String ":" (String ":" path))))))))))))).
  do 11 (rewrite split_once_skip by reflexivity).
  rewrite split_once_here by (cbn; apply prefix_empty).
  reflexivity.
Qed.

(** X7. The load type 'huggingface' reads the pretrained weights through
    [gptj_config] whatever the model: with that variable assigned the run
    starts at step 0 from the sharded pretrained parameters, and with it
    unassigned (model 'opt') the restoring step raises
    [UnboundLocalError]. *)
Theorem huggingface_load_goes_through_gptj_config env path g :
  load_checkpoint (FLAGS env) = "huggingface::" +:+ path →
  restore env g
  = match gptj_config env with
    | Some c =>
        ([], inr ({| step := 0;
                     params := shard_params (load_pretrained c path);
                     opt_state := tx_init (optimizer_var env)
                                    (shard_params (load_pretrained c path)) |},
                  g))
    | None => ([], inl (UnboundLocalError "gptj_config"))
    end.
Proof.
  intros Hlc. unfold restore, load_source. rewrite Hlc.
  rewrite decide_True by discriminate.
  rewrite split_once_huggingface.
  rewrite decide_True by reflexivity.
  destruct (gptj_config env); simpl; by mstep.
Qed.

End Restoring.

Section Loop.
Context `{W : World}.

Ltac mstep :=
  repeat first
    [ rewrite bind_lift_inr | rewrite bind_lift_inl | rewrite bind_ret
    | rewrite bind_raise | rewrite bind_emit
    | rewrite M_bind_inr | rewrite M_bind_inl
    | progress cbn [fst snd mret M_ret] ].

(** ** Held-out data *)

Lemma eval_loop_short env n : ∀ s m acc,
  (length (hf_eval_iterator s) < n ∨ length (pt_eval_iterator s) < n)%nat →
  ∃ k, eval_loop env n s m acc
       = (replicate k (EvEvalStep m), inl StopIteration)
     ∧ k = (length (hf_eval_iterator s) `min` length (pt_eval_iterator s))%nat.
Proof.
  induction n as [|n IH]; intros s m acc Hshort; [lia|].
  destruct s as [ts rng [|hb hf_it] [|pb pt_it]];
    cbn [eval_loop hf_eval_iterator pt_eval_iterator train_state sharded_rng
         py_next length] in *.
  - exists 0%nat. by mstep.
  - exists 0%nat. by mstep.
  - exists 0%nat. split; [by mstep|lia].
  - destruct (eval_step_returns_enclosing env ts rng hb pb m) as [rng' Hstep].
    destruct (IH {| train_state := ts; sharded_rng := rng';
                    hf_eval_iterator := hf_it; pt_eval_iterator := pt_it |}
                 m (acc ++ [m])) as (k & Hrun & Hk); [simpl; lia|].
    exists (S k). split; [|simpl in Hk; lia].
    rewrite !bind_lift_inr, Hstep, bind_lift_inr, bind_emit, Hrun.
    reflexivity.
Qed.


(** X8. Unlike the training data, the held-out data must not run out: at
    a logging step with [eval_steps > 0], a held-out iterator with fewer
    than [eval_steps] batches left makes the loop body raise
    [StopIteration] after the training step and the evaluation steps that
    could still be fed; no record is logged and nothing is saved. *)
Theorem eval_exhaustion_is_fatal env s i hf_batch pt_batch
    (Hfreq : log_freq (FLAGS env) ≠ 0)
    (Hlog : i `mod` log_freq (FLAGS env) = 0)
    (Hshort : Z.of_nat (length (hf_eval_iterator s)) < eval_steps (FLAGS env)
              ∨ Z.of_nat (length (pt_eval_iterator s))
                < eval_steps (FLAGS env)) :
  ∃ m, loop_body env s (i, hf_batch, pt_batch)
       = (EvTrainStep i m
            :: replicate (length (hf_eval_iterator s)
                          `min` length (pt_eval_iterator s))%nat
                 (EvEvalStep m),
          inl StopIteration).
Proof.
  destruct (train_step_total env (train_state s) (sharded_rng s)
              hf_batch pt_batch) as (ts & rng & m & Hstep & _ & _).
  set (s1 := {| train_state := ts; sharded_rng := rng;
                hf_eval_iterator := hf_eval_iterator s;
                pt_eval_iterator := pt_eval_iterator s |}).
  destruct (eval_loop_short env (Z.to_nat (eval_steps (FLAGS env))) s1 m [])
    as (k & Hrun & ->); [simpl; lia|].
  exists m. unfold loop_body. rewrite Hstep. mstep. fold s1.
  unfold log_phase, py_mod.
  rewrite (decide_False (P := log_freq (FLAGS env) = 0)) by exact Hfreq.
  rewrite bind_lift_inr.
  rewrite (decide_True (P := i `mod` log_freq (FLAGS env) = 0)) by exact Hlog.
  rewrite (decide_True (P := 0 < eval_steps (FLAGS env))) by lia.
  rewrite Hrun. mstep. reflexivity.
Qed.

Lemma loop_body_zero_log_freq env s i hf_batch pt_batch :
  log_freq (FLAGS env) = 0 →
  ∃ m, loop_body env s (i, hf_batch, pt_batch)
       = ([EvTrainStep i m], inl ZeroDivisionError).
Proof.
  intros Hzero.
  destruct (train_step_total env (train_state s) (sharded_rng s)
              hf_batch pt_batch) as (ts & rng & m & Hstep & _ & _).
  exists m. unfold loop_body. rewrite Hstep. mstep.
  unfold log_phase, py_mod.
  rewrite (decide_True (P := log_freq (FLAGS env) = 0)) by exact Hzero.
  by mstep.
Qed.

Lemma py_range_cons a b : a < b → py_range a b = a :: py_range (a + 1) b.
Proof.
  intros Hab. unfold py_range.
  replace (Z.to_nat (b - a)) with (S (Z.to_nat (b - (a + 1)))) by lia.
  cbn [seq fmap list_fmap]. f_equal; [lia|].
  rewrite <- fmap_S_seq, <- list_fmap_compose.
  apply list_fmap_ext. intros _ j _. simpl. lia.
Qed.

(** X9. [log_freq = 0] does not switch logging off: a run with at least
    one step to do trains that step and then ends in [ZeroDivisionError]
    at the interval test; nothing is saved after the initial checkpoint,
    the final checkpoint included. *)
Theorem zero_log_freq_aborts_run env ts0 g hf pt hfe pte :
  log_freq (FLAGS env) = 0 →
  step ts0 < total_steps (FLAGS env) →
  batches hf ≠ [] → batches pt ≠ [] →
  saves_ok env →
  (run env ts0 g hf pt hfe pte).2 = inl ZeroDivisionError
  ∧ (train_steps (run env ts0 g hf pt hfe pte).1).*1 = [step ts0]
  ∧ save_calls (run env ts0 g hf pt hfe pte).1
    = if decide (0 < save_model_freq (FLAGS env)) then [(step ts0, false)]
      else [].
Proof.
  intros Hzero Hlt Hhf Hpt Hsave. unfold run.
  destruct (next_rng g) as [rng g'].
  rewrite (py_range_cons _ _ Hlt).
  destruct (batches hf) as [|hb hbs]; [done|].
  destruct (batches pt) as [|pb pbs]; [done|].
  cbn [zip3 train_loop].
  destruct (loop_body_zero_log_freq env
              {| train_state := ts0; sharded_rng := rng;
                 hf_eval_iterator := hfe; pt_eval_iterator := pte |}
              (step ts0) hb pb Hzero) as [m Hbody].
  rewrite Hbody.
  destruct (decide (0 < save_model_freq (FLAGS env))) as [Hon|Hoff].
  - destruct Hsave as [[c Hc]|[Hle _]]; [|lia].
    rewrite (save_checkpoint_bound env ts0 false c Hc). by mstep.
  - by mstep.
Qed.

(** ** The schedule of a run *)











Lemma run_steps_zip3 env ts0 hf pt :
  (zip3 (py_range (step ts0) (total_steps (FLAGS env)))
        (batches hf) (batches pt)).*1.*1
  = run_steps (FLAGS env) ts0 hf pt.
Proof. apply zip3_fst. Qed.






(** ** Held-out batches drawn by a run *)

Lemma log_phase_exact env i s m :
  log_freq (FLAGS env) ≠ 0 →
  let n := if decide (i `mod` log_freq (FLAGS env) = 0)
           then Z.to_nat (eval_steps (FLAGS env)) else 0%nat in
  (n ≤ length (hf_eval_iterator s))%nat →
  (n ≤ length (pt_eval_iterator s))%nat →
  ∃ tr s', log_phase env i s m = (tr, inr s')
    ∧ hf_eval_iterator s' = drop n (hf_eval_iterator s)
    ∧ pt_eval_iterator s' = drop n (pt_eval_iterator s).
Proof.
  intros Hfreq n Hhf Hpt. unfold log_phase, py_mod.
  rewrite (decide_False (P := log_freq (FLAGS env) = 0)) by exact Hfreq.
  rewrite bind_lift_inr. subst n.
  destruct (decide (i `mod` log_freq (FLAGS env) = 0)) as [Hlog|Hlog].
  - destruct (decide (0 < eval_steps (FLAGS env))) as [Hev|Hev].
    + destruct (eval_loop_ok env (Z.to_nat (eval_steps (FLAGS env))) s m []
                  Hhf Hpt) as (s' & Hrun & Hts & Hh & Hp).
      rewrite Hrun. mstep. by eexists _, s'.
    + mstep. replace (Z.to_nat (eval_steps (FLAGS env))) with 0%nat by lia.
      by eexists _, s.
  - mstep. by eexists _, s.
Qed.

Lemma loop_body_exact env s i hf_batch pt_batch :
  saves_ok env →
  log_freq (FLAGS env) ≠ 0 →
  let n := if decide (i `mod` log_freq (FLAGS env) = 0)
           then Z.to_nat (eval_steps (FLAGS env)) else 0%nat in
  (n ≤ length (hf_eval_iterator s))%nat →
  (n ≤ length (pt_eval_iterator s))%nat →
  ∃ tr s', loop_body env s (i, hf_batch, pt_batch) = (tr, inr s')
    ∧ hf_eval_iterator s' = drop n (hf_eval_iterator s)
    ∧ pt_eval_iterator s' = drop n (pt_eval_iterator s).
Proof.
  intros Hsave Hfreq n Hhf Hpt.
  destruct (train_step_total env (train_state s) (sharded_rng s)
              hf_batch pt_batch) as (ts & rng & m & Hstep & _ & _).
  set (s1 := {| train_state := ts; sharded_rng := rng;
                hf_eval_iterator := hf_eval_iterator s;
                pt_eval_iterator := pt_eval_iterator s |}).
  destruct (log_phase_exact env i s1 m Hfreq Hhf Hpt)
    as (tr1 & s' & Hlog & Hh & Hp).
  destruct (save_phase_ok env i s' Hsave) as (tr2 & Hsv & _).
  eexists _, s'. split; [|by split].
  unfold loop_body. rewrite Hstep. mstep. fold s1. rewrite Hlog. mstep.
  rewrite Hsv. by mstep.
Qed.

Lemma train_loop_exact env items : ∀ s,
  saves_ok env →
  log_freq (FLAGS env) ≠ 0 →
  let n := (Z.to_nat (eval_steps (FLAGS env))
            * length (log_steps (FLAGS env) items.*1.*1))%nat in
  (n ≤ length (hf_eval_iterator s))%nat →
  (n ≤ length (pt_eval_iterator s))%nat →
  ∃ tr s', train_loop env s items = (tr, inr s')
    ∧ hf_eval_iterator s' = drop n (hf_eval_iterator s)
    ∧ pt_eval_iterator s' = drop n (pt_eval_iterator s).
Proof.
  induction items as [|[[i hb] pb] items IH]; intros s Hsave Hfreq n Hhf Hpt.
  - exists [], s. subst n. simpl. by rewrite Nat.mul_0_r.
  - subst n. unfold log_steps in *. cbn [fmap list_fmap fst] in *.
    rewrite filter_cons in *.
    destruct (loop_body_exact env s i hb pb Hsave Hfreq)
      as (tr1 & s1 & Hbody & Hh & Hp);
      [destruct (decide (i `mod` log_freq (FLAGS env) = 0)); simpl in *; lia..|].
    destruct (IH s1 Hsave Hfreq) as (tr2 & s2 & Hloop & Hh2 & Hp2).
    { rewrite Hh, length_drop.
      destruct (decide (i `mod` log_freq (FLAGS env) = 0)); simpl in *; lia. }
    { rewrite Hp, length_drop.
      destruct (decide (i `mod` log_freq (FLAGS env) = 0)); simpl in *; lia. }
    exists (tr1 ++ tr2), s2. split.
    { cbn [train_loop]. rewrite Hbody. mstep. by rewrite Hloop. }
    rewrite Hh2, Hp2, Hh, Hp, !drop_drop.
    destruct (decide (i `mod` log_freq (FLAGS env) = 0)); simpl length;
      split; f_equal; lia.
Qed.

(** X16. A run draws held-out batches only at its logging steps,
    [eval_steps] from each of the two held-out iterators per logging step:
    with that many batches at hand (and no failing checkpoint or interval
    test) it ends normally, having consumed exactly
    [eval_steps * number of logging steps] batches of each. *)
Theorem held_out_batches_consumed env ts0 g hf pt hfe pte
    (Hsave : saves_ok env)
    (Hfreq : log_freq (FLAGS env) ≠ 0)
    (Hehf : (Z.to_nat (eval_steps (FLAGS env))
             * length (log_steps (FLAGS env) (run_steps (FLAGS env) ts0 hf pt))
             ≤ length hfe)%nat)
    (Hept : (Z.to_nat (eval_steps (FLAGS env))
             * length (log_steps (FLAGS env) (run_steps (FLAGS env) ts0 hf pt))
             ≤ length pte)%nat) :
  ∃ tr s, run env ts0 g hf pt hfe pte = (tr, inr s)
    ∧ hf_eval_iterator s
      = drop (Z.to_nat (eval_steps (FLAGS env))
              * length (log_steps (FLAGS env)
                          (run_steps (FLAGS env) ts0 hf pt))) hfe
    ∧ pt_eval_iterator s
      = drop (Z.to_nat (eval_steps (FLAGS env))
              * length (log_steps (FLAGS env)
                          (run_steps (FLAGS env) ts0 hf pt))) pte.
Proof.
  unfold run. destruct (next_rng g) as [rng g'].
  pose proof (run_steps_zip3 env ts0 hf pt) as Hz.
  set (items := zip3 _ _ _) in *.
  destruct (train_loop_exact env items
              {| train_state := ts0; sharded_rng := rng;
                 hf_eval_iterator := hfe; pt_eval_iterator := pte |}
              Hsave Hfreq) as (tr & s & Hloop & Hh & Hp).
  { simpl. by rewrite Hz. }
  { simpl. by rewrite Hz. }
  rewrite Hz in Hh, Hp. simpl in Hh, Hp.
  destruct (decide (0 < save_model_freq (FLAGS env))) as [Hon|Hoff].
  - destruct Hsave as [[c Hc]|[Hle _]]; [|lia].
    rewrite (save_checkpoint_bound env ts0 false c Hc). mstep.
    rewrite Hloop. mstep.
    rewrite (save_checkpoint_bound env (train_state s) false c Hc). mstep.
    by eexists _, s.
  - mstep. rewrite Hloop. mstep. by eexists _, s.
Qed.

(** ** Runs that reach the end of the loop *)

Lemma save_phase_tight env i s :
  is_Some (gptj_config env) ∨ save_schedule (FLAGS env) i = None →
  ∃ tr, save_phase env i s = (tr, inr tt) ∧ train_steps tr = [].
Proof.
  intros [[c Hc]|Hnone]; unfold save_phase.
  - repeat case_decide; rewrite ?(save_checkpoint_bound _ _ _ _ Hc);
      eexists; split; reflexivity.
  - unfold save_schedule in Hnone.
    destruct (decide (0 < save_milestone_freq (FLAGS env)
                      ∧ (i + 1) `mod` save_milestone_freq (FLAGS env) = 0));
      [discriminate|].
    destruct (decide (0 < save_model_freq (FLAGS env)
                      ∧ (i + 1) `mod` save_model_freq (FLAGS env) = 0));
      [discriminate|].
    by eexists.
Qed.

Lemma log_phase_tight env i s m :
  log_freq (FLAGS env) ≠ 0 →
  let n := if decide (i `mod` log_freq (FLAGS env) = 0)
           then Z.to_nat (eval_steps (FLAGS env)) else 0%nat in
  (n ≤ length (hf_eval_iterator s))%nat →
  (n ≤ length (pt_eval_iterator s))%nat →
  ∃ tr s', log_phase env i s m = (tr, inr s')
    ∧ train_steps tr = []
    ∧ train_state s' = train_state s
    ∧ hf_eval_iterator s' = drop n (hf_eval_iterator s)
    ∧ pt_eval_iterator s' = drop n (pt_eval_iterator s).
Proof.
  intros Hfreq n Hhf Hpt. unfold log_phase, py_mod.
  rewrite (decide_False (P := log_freq (FLAGS env) = 0)) by exact Hfreq.
  rewrite bind_lift_inr. subst n.
  destruct (decide (i `mod` log_freq (FLAGS env) = 0)) as [Hlog|Hlog].
  - destruct (decide (0 < eval_steps (FLAGS env))) as [Hev|Hev].
    + destruct (eval_loop_ok env (Z.to_nat (eval_steps (FLAGS env))) s m []
                  Hhf Hpt) as (s' & Hrun & Hts & Hh & Hp).
      rewrite Hrun. mstep. eexists _, s'. split; [reflexivity|].
      rewrite !train_steps_app, train_steps_replicate_eval. by repeat split.
    + mstep. replace (Z.to_nat (eval_steps (FLAGS env))) with 0%nat by lia.
      by eexists _, s.
  - mstep. by eexists _, s.
Qed.

Lemma loop_body_tight env s i hf_batch pt_batch :
  log_freq (FLAGS env) ≠ 0 →
  is_Some (gptj_config env) ∨ save_schedule (FLAGS env) i = None →
  let n := if decide (i `mod` log_freq (FLAGS env) = 0)
           then Z.to_nat (eval_steps (FLAGS env)) else 0%nat in
  (n ≤ length (hf_eval_iterator s))%nat →
  (n ≤ length (pt_eval_iterator s))%nat →
  ∃ tr s' m, loop_body env s (i, hf_batch, pt_batch) = (tr, inr s')
    ∧ train_steps tr = [(i, m)]
    ∧ step (train_state s') = step (train_state s) + 1
    ∧ hf_eval_iterator s' = drop n (hf_eval_iterator s)
    ∧ pt_eval_iterator s' = drop n (pt_eval_iterator s).
Proof.
  intros Hfreq Hsave n Hhf Hpt.
  destruct (train_step_total env (train_state s) (sharded_rng s)
              hf_batch pt_batch) as (ts & rng & m & Hstep & Hinc & _).
  set (s1 := {| train_state := ts; sharded_rng := rng;
                hf_eval_iterator := hf_eval_iterator s;
                pt_eval_iterator := pt_eval_iterator s |}).
  destruct (log_phase_tight env i s1 m Hfreq Hhf Hpt)
    as (tr1 & s' & Hlog & Htr1 & Hts & Hh & Hp).
  destruct (save_phase_tight env i s' Hsave) as (tr2 & Hsv & Htr2).
  exists (EvTrainStep i m :: tr1 ++ tr2), s', m. split.
  - unfold loop_body. rewrite Hstep. mstep. fold s1. rewrite Hlog. mstep.
    rewrite Hsv. mstep. by rewrite app_nil_r.
  - split; [|split; [by rewrite Hts|by split]].
    change (EvTrainStep i m :: tr1 ++ tr2)
      with ([EvTrainStep i m] ++ tr1 ++ tr2).
    rewrite !train_steps_app, Htr1, Htr2. reflexivity.
Qed.

Lemma train_loop_tight env items : ∀ s,
  (items ≠ [] → log_freq (FLAGS env) ≠ 0) →
  is_Some (gptj_config env)
  ∨ Forall (λ i, save_schedule (FLAGS env) i = None) items.*1.*1 →
  let n := (Z.to_nat (eval_steps (FLAGS env))
            * length (log_steps (FLAGS env) items.*1.*1))%nat in
  (n ≤ length (hf_eval_iterator s))%nat →
  (n ≤ length (pt_eval_iterator s))%nat →
  ∃ tr s', train_loop env s items = (tr, inr s')
    ∧ (train_steps tr).*1 = items.*1.*1
    ∧ step (train_state s') = step (train_state s) + Z.of_nat (length items).
Proof.
  induction items as [|[[i hb] pb] items IH]; intros s Hfreq Hsave n Hhf Hpt.
  - exists [], s. simpl. repeat split; try done. lia.
  - assert (Hf : log_freq (FLAGS env) ≠ 0) by (by apply Hfreq).
    assert (Hsave1 : is_Some (gptj_config env)
                     ∨ save_schedule (FLAGS env) i = None).
    { destruct Hsave as [?|Hall]; [by left|right].
      cbn [fmap list_fmap fst] in Hall. by inversion Hall. }
    assert (Hsave2 : is_Some (gptj_config env)
                     ∨ Forall (λ i, save_schedule (FLAGS env) i = None)
                         items.*1.*1).
    { destruct Hsave as [?|Hall]; [by left|right].
      cbn [fmap list_fmap fst] in Hall. by inversion Hall. }
    subst n. unfold log_steps in *. cbn [fmap list_fmap fst] in Hhf, Hpt.
    rewrite filter_cons in Hhf, Hpt.
    destruct (loop_body_tight env s i hb pb Hf Hsave1)
      as (tr1 & s1 & m & Hbody & Htr1 & Hinc & Hh & Hp);
      [destruct (decide (i `mod` log_freq (FLAGS env) = 0)); simpl in *; lia..|].
    destruct (IH s1 (λ _, Hf) Hsave2) as (tr2 & s2 & Hloop & Htr2 & Hinc2).
    { rewrite Hh, length_drop.
      destruct (decide (i `mod` log_freq (FLAGS env) = 0)); simpl in *; lia. }
    { rewrite Hp, length_drop.
      destruct (decide (i `mod` log_freq (FLAGS env) = 0)); simpl in *; lia. }
    exists (tr1 ++ tr2), s2. split; [|split].
    + cbn [train_loop]. rewrite Hbody. mstep. by rewrite Hloop.
    + rewrite train_steps_app, fmap_app, Htr1, Htr2. reflexivity.
    + rewrite Hinc2, Hinc. simpl length. lia.
Qed.

Lemma run_tight env ts0 g hf pt hfe pte :
  loop_can_run env (run_steps (FLAGS env) ts0 hf pt) hfe pte →
  ∃ tr s, run env ts0 g hf pt hfe pte = (tr, inr s)
    ∧ (train_steps tr).*1 = run_steps (FLAGS env) ts0 hf pt
    ∧ step (train_state s)
      = step ts0 + Z.of_nat (length (run_steps (FLAGS env) ts0 hf pt))
    ∧ (0 < save_model_freq (FLAGS env) →
       ∃ tr' enabled md,
         tr = tr' ++ [EvSaveCheckpoint (step (train_state s)) false;
                      EvSaveAll enabled (train_state s) md false]
         ∧ md_step md = step (train_state s)).
Proof.
  intros (Hfreq & Hsave & Hhf & Hpt). unfold run.
  destruct (next_rng g) as [rng g'].
  pose proof (run_steps_zip3 env ts0 hf pt) as Hz.
  set (items := zip3 _ _ _) in *.
  assert (Hlen : length items = length (run_steps (FLAGS env) ts0 hf pt)).
  { by rewrite <- Hz, !length_fmap. }
  destruct (train_loop_tight env items
              {| train_state := ts0; sharded_rng := rng;
                 hf_eval_iterator := hfe; pt_eval_iterator := pte |})
    as (tr & s & Hloop & Htr & Hstep).
  { intros Hne. apply Hfreq. rewrite <- Hz. by destruct items. }
  { rewrite Hz. destruct Hsave as [?|[_ ?]]; [by left|by right]. }
  { simpl. by rewrite Hz. }
  { simpl. by rewrite Hz. }
  rewrite Hz in Htr. simpl in Hstep. rewrite Hlen in Hstep.
  destruct (decide (0 < save_model_freq (FLAGS env))) as [Hon|Hoff].
  - destruct Hsave as [[c Hc]|[Hle _]]; [|lia].
    rewrite (save_checkpoint_bound env ts0 false c Hc). mstep.
    rewrite Hloop. mstep.
    rewrite (save_checkpoint_bound env (train_state s) false c Hc). mstep.
    rewrite !app_nil_r.
    eexists _, s. split; [reflexivity|].
    split; [|split; [exact Hstep|]].
    + rewrite (train_steps_app [_; _]), train_steps_app.
      cbn [train_steps omap]. rewrite app_nil_r. exact Htr.
    + intros _. eexists (_ :: _ :: tr), _, _. split; reflexivity.
  - mstep. rewrite Hloop. mstep.
    eexists _, s. split; [reflexivity|].
    split; [|split; [exact Hstep|lia]].
    rewrite !app_nil_r. exact Htr.
Qed.

(** C5. Started from a train state at step [S] with [S <= total_steps],
    with enough training batches and with nothing in a loop body that can
    raise ([loop_can_run]), the run performs exactly the steps
    [S, ..., total_steps - 1]: [total_steps - S] training steps, ending at
    step [total_steps]. *)
Theorem resume_runs_remaining_steps env ts0 g hf pt hfe pte
    (HST : step ts0 ≤ total_steps (FLAGS env))
    (Hhf : total_steps (FLAGS env) - step ts0 ≤ Z.of_nat (length (batches hf)))
    (Hpt : total_steps (FLAGS env) - step ts0 ≤ Z.of_nat (length (batches pt)))
    (Hcan : loop_can_run env
              (py_range (step ts0) (total_steps (FLAGS env))) hfe pte) :
  ∃ tr s, run env ts0 g hf pt hfe pte = (tr, inr s)
    ∧ (train_steps tr).*1 = py_range (step ts0) (total_steps (FLAGS env))
    ∧ Z.of_nat (length (train_steps tr)) = total_steps (FLAGS env) - step ts0
    ∧ step (train_state s) = total_steps (FLAGS env).
Proof.
  pose proof (length_py_range (step ts0) (total_steps (FLAGS env))) as Hlen.
  assert (Hsteps : run_steps (FLAGS env) ts0 hf pt
                   = py_range (step ts0) (total_steps (FLAGS env))).
  { unfold run_steps, available. apply take_ge. lia. }
  rewrite <- Hsteps in Hcan.
  destruct (run_tight env ts0 g hf pt hfe pte Hcan)
    as (tr & s & Hrun & Htr & Hstep & _).
  rewrite Hsteps in Htr, Hstep.
  exists tr, s. split; [exact Hrun|]. split; [exact Htr|]. split.
  - rewrite <- (length_fmap fst), Htr, Hlen. lia.
  - rewrite Hstep, Hlen. lia.
Qed.


End Loop.

Section Inputs.
Context `{W : World}.

Lemma model_inputs_lookup env batch r row :
  tokens batch !! r = Some row →
  model_inputs env batch !! r
  = Some (as_int32 (bos_token_id (config env)) :: removelast row).
Proof.
  intros Hrow. unfold model_inputs.
  rewrite lookup_zip_with, !list_lookup_fmap, Hrow. reflexivity.
Qed.

Lemma as_int32_in_range x : - 2 ^ 31 ≤ x < 2 ^ 31 → as_int32 x = x.
Proof. intros H. unfold as_int32. by rewrite decide_True. Qed.

Lemma removelast_lookup (row : list Z) j :
  (S j < length row)%nat → removelast row !! j = row !! j.
Proof.
  intros Hj. rewrite removelast_firstn_len.
  change (firstn ?n ?l) with (take n l). apply lookup_take_lt. lia.
Qed.

Lemma length_removelast (row : list Z) :
  length (removelast row) = pred (length row).
Proof.
  rewrite removelast_firstn_len. change (firstn ?n ?l) with (take n l).
  rewrite length_take. lia.
Qed.

(** X13. The loss compares the model's output on the shifted tokens with
    the unshifted ones: the model input has one row per token row, each
    starting with the BOS id as an int32 and then holding the row's tokens
    moved one place to the right, so position [j + 1] reads token [j] and
    the last token is never fed.  A non-empty row keeps its length; an
    empty row becomes a row of length 1.  For a BOS id that fits into 32
    bits the first column is that id. *)
Theorem model_inputs_shift_right env g p batch
    (Hbos : - 2 ^ 31 ≤ bos_token_id (config env) < 2 ^ 31) :
  (loss_and_accuracy env g p batch).1
  = cross_entropy_loss_and_accuracy
      (model_apply (model_var env) (config env) p (model_inputs env batch)
         (JaxRNG_call_keys g (rng_keys (config env))).1)
      (tokens batch) (loss_masks batch)
  ∧ length (model_inputs env batch) = length (tokens batch)
  ∧ ∀ r row, tokens batch !! r = Some row →
      ∃ inp, model_inputs env batch !! r = Some inp
        ∧ inp !! 0%nat = Some (bos_token_id (config env))
        ∧ (∀ j, (S j < length row)%nat → inp !! S j = row !! j)
        ∧ length inp = (length row `max` 1)%nat.
Proof.
  split; [|split].
  - unfold loss_and_accuracy, model_inputs.
    by destruct (JaxRNG_call_keys g (rng_keys (config env))).
  - unfold model_inputs. rewrite length_zip_with, !length_fmap. lia.
  - intros r row Hrow. eexists. split; [by apply model_inputs_lookup|].
    split; [simpl; by rewrite as_int32_in_range|]. split.
    + intros j Hj. simpl. by apply removelast_lookup.
    + simpl. rewrite length_removelast. lia.
Qed.

End Inputs.

(** * Properties of the harness adapter *)

Section HarnessProperties.
Context {LL Out : Type} (lm_client : @Harness.LMClient LL Out).

Lemma zip_star_pairs (reqs : list (string * string)) :
  reqs ≠ [] →
  Harness.zip_star ((λ pt, [pt.1; pt.2]) <$> reqs) = [reqs.*1; reqs.*2].
Proof.
  induction reqs as [|[a b] reqs IH]; [done|]. intros _.
  destruct reqs as [|[a' b'] reqs]; [reflexivity|].
  change (Harness.zip_star ((λ pt, [pt.1; pt.2]) <$> (a, b) :: (a', b') :: reqs))
    with (zip_with cons [a; b]
            (Harness.zip_star ((λ pt, [pt.1; pt.2]) <$> (a', b') :: reqs))).
  by rewrite IH.
Qed.

Lemma shortest_foldr_min {A} (a b : nat) (rs : list (list A)) :
  foldr (λ r' n, (length r' `min` n)%nat) (a `min` b)%nat rs
  = (a `min` foldr (λ r' n, (length r' `min` n)%nat) b rs)%nat.
Proof. induction rs as [|r rs IH]; simpl; [reflexivity|]. rewrite IH. lia. Qed.

Lemma length_zip_star {A} (rows : list (list A)) :
  length (Harness.zip_star rows) = Harness.shortest rows.
Proof.
  induction rows as [|r rows IH]; [reflexivity|].
  destruct rows as [|r' rows]; [simpl; by rewrite length_fmap|].
  change (Harness.zip_star (r :: r' :: rows))
    with (zip_with cons r (Harness.zip_star (r' :: rows))).
  rewrite length_zip_with, IH. simpl.
  pose proof (shortest_foldr_min (length r) (length r') rows) as H1.
  pose proof (shortest_foldr_min (length r') (length r) rows) as H2.
  rewrite (Nat.min_comm (length r') (length r)) in H2. lia.
Qed.

Lemma unpack2_ok {A} (xs : list A) :
  (∃ ab, Harness.unpack2 xs = inr ab) ↔ length xs = 2%nat.
Proof.
  destruct xs as [|a [|b [|c xs]]]; simpl; split;
    try (intros [? ?]; discriminate); try discriminate; eauto.
Qed.

(** X14. [loglikelihood] and [greedy_until] return exactly when the
    shortest request has two fields: an empty request list, or a request
    with fewer than two fields, raises [ValueError] before the client is
    called, and so does a list whose requests all have more than two
    fields. *)
Theorem unpacking_methods_need_pairs (inputs : list (list string)) :
  ((∃ res, Harness.loglikelihood lm_client inputs = inr res)
   ↔ Harness.shortest inputs = 2%nat)
  ∧ ((∃ out, Harness.greedy_until lm_client inputs = inr out)
     ↔ Harness.shortest inputs = 2%nat).
Proof.
  rewrite <- length_zip_star, <- !unpack2_ok.
  unfold Harness.loglikelihood, Harness.greedy_until.
  destruct (Harness.unpack2 (Harness.zip_star inputs)) as [e|[a b]].
  - split; split; intros [? ?]; discriminate.
  - destruct (Harness.client_loglikelihood lm_client a b).
    split; split; eauto.
Qed.

(** X15. For a non-empty list of (prefix, text) requests, [loglikelihood]
    calls the client once with all prefixes and all texts, each in request
    order, and pairs the returned scores with the returned flags position
    by position; when the two returned lists differ in length the surplus
    of the longer one is dropped. *)
Theorem loglikelihood_of_pairs (reqs : list (string * string)) :
  reqs ≠ [] →
  ∃ res, Harness.loglikelihood lm_client ((λ pt, [pt.1; pt.2]) <$> reqs)
         = inr res
    ∧ res = zip (Harness.client_loglikelihood lm_client reqs.*1 reqs.*2).1
                (Harness.client_loglikelihood lm_client reqs.*1 reqs.*2).2
    ∧ zip reqs.*1 reqs.*2 = reqs
    ∧ length res
      = (length (Harness.client_loglikelihood lm_client reqs.*1 reqs.*2).1
         `min`
         length (Harness.client_loglikelihood lm_client reqs.*1 reqs.*2).2)%nat.
Proof.
  intros Hne. unfold Harness.loglikelihood.
  rewrite (zip_star_pairs reqs Hne). simpl.
  destruct (Harness.client_loglikelihood lm_client reqs.*1 reqs.*2)
    as [lls gs].
  eexists. split; [reflexivity|]. split; [reflexivity|]. split.
  - apply zip_fst_snd.
  - simpl. apply length_zip_with.
Qed.

End HarnessProperties.

(** * The properties at work on the small world *)

#[local] Existing Instance Toy.domain.
#[local] Existing Instance Toy.world.

Lemma train_step_applies_combined_grads_witness :
  (∀ (w : Scalar) (t : Tensor), scalar_mul_tensor w t = tensor_mul_scalar t w)
  ∧ ∃ grads rng' metrics,
      train_step Toy.env_eval Toy.checkpoint_500 11 Toy.batch Toy.batch
        = inr (apply_gradients Toy.env_eval Toy.checkpoint_500 grads, rng', metrics)
      ∧ grads.*1 = (params Toy.checkpoint_500).*1
      ∧ ∀ i k t, params Toy.checkpoint_500 !! i = Some (k, t) →
          grads !! i =
            Some (k, tensor_add
                       (batch_grad Toy.env_eval 11 (params Toy.checkpoint_500)
                                   Toy.batch k)
                       (scalar_mul_tensor (pt_loss_weight (FLAGS Toy.env_eval))
                          (batch_grad Toy.env_eval
                             (loss_and_accuracy Toy.env_eval 11
                                (params Toy.checkpoint_500) Toy.batch).2
                             (params Toy.checkpoint_500) Toy.batch k))).
Proof.
  assert (Hcomm : ∀ (w : Scalar) (t : Tensor),
             scalar_mul_tensor w t = tensor_mul_scalar t w)
    by (intros w t; apply Z.mul_comm).
  split; [exact Hcomm|].
  exact (train_step_applies_combined_grads Toy.env_eval Toy.checkpoint_500 11
           Toy.batch Toy.batch Hcomm).
Defined.

Lemma eval_metrics_never_reach_log_witness :
  log_freq (FLAGS Toy.env_eval) ≠ 0
  ∧ 0 `mod` log_freq (FLAGS Toy.env_eval) = 0
  ∧ 0 < eval_steps (FLAGS Toy.env_eval)
  ∧ ∃ ts rng m s' enabled record,
      train_step Toy.env_eval Toy.checkpoint_500 11 Toy.batch Toy.batch
        = inr (ts, rng, m)
      ∧ log_phase Toy.env_eval 0
          {| train_state := ts; sharded_rng := rng;
             hf_eval_iterator := repeat Toy.batch 8;
             pt_eval_iterator := repeat Toy.batch 8 |} m
        = (replicate (Z.to_nat (eval_steps (FLAGS Toy.env_eval))) (EvEvalStep m)
             ++ [EvLog enabled record], inr s')
      ∧ dom record = {["step"]} ∪ train_metric_keys
      ∧ ∀ k, k ∈ eval_metric_keys → record !! k = None.
Proof.
  assert (H1 : log_freq (FLAGS Toy.env_eval) ≠ 0) by (vm_compute; discriminate).
  assert (H2 : 0 `mod` log_freq (FLAGS Toy.env_eval) = 0) by reflexivity.
  assert (H3 : 0 < eval_steps (FLAGS Toy.env_eval)) by reflexivity.
  split; [exact H1|]. split; [exact H2|]. split; [exact H3|].
  apply (eval_metrics_never_reach_log Toy.env_eval (Toy.locals Toy.checkpoint_500 8)
           0 Toy.batch Toy.batch H1 H2 H3); vm_compute; discriminate.
Defined.

Lemma opt_save_checkpoint_raises_witness :
  model Toy.flags_opt = "opt"
  ∧ build_model Toy.flags_opt (Some 50)
    = ([EvModelConstruct OPT Toy.toy_config],
       inr (OPT, Toy.toy_config, None, Some Toy.toy_config))
  ∧ save_checkpoint Toy.env_opt Toy.checkpoint_500 false
    = ([EvSaveCheckpoint 500 false], inl (NameError "gptj_config")).
Proof.
  assert (H1 : model Toy.flags_opt = "opt") by reflexivity.
  assert (H2 : build_model Toy.flags_opt (Some 50)
               = ([EvModelConstruct OPT Toy.toy_config],
                  inr (OPT, Toy.toy_config, None, Some Toy.toy_config)))
    by reflexivity.
  split; [exact H1|]. split; [exact H2|].
  exact (opt_save_checkpoint_raises Toy.flags_opt (Some 50) _ _ _ _ _ Toy.env_opt
           Toy.checkpoint_500 false H1 H2 eq_refl).
Defined.

Lemma milestone_takes_priority_witness :
  0 < save_milestone_freq (FLAGS Toy.env_resume)
  ∧ 0 < save_model_freq (FLAGS Toy.env_resume)
  ∧ (save_milestone_freq (FLAGS Toy.env_resume) | 499 + 1)
  ∧ (save_model_freq (FLAGS Toy.env_resume) | 499 + 1)
  ∧ save_phase Toy.env_resume 499 (Toy.locals Toy.checkpoint_500 8)
    = save_checkpoint Toy.env_resume Toy.checkpoint_500 true
  ∧ save_calls (save_phase Toy.env_resume 499 (Toy.locals Toy.checkpoint_500 8)).1
    = [(500, true)].
Proof.
  assert (H1 : 0 < save_milestone_freq (FLAGS Toy.env_resume)) by reflexivity.
  assert (H2 : 0 < save_model_freq (FLAGS Toy.env_resume)) by reflexivity.
  assert (H3 : (save_milestone_freq (FLAGS Toy.env_resume) | 499 + 1))
    by (exists 2; reflexivity).
  assert (H4 : (save_model_freq (FLAGS Toy.env_resume) | 499 + 1))
    by (exists 10; reflexivity).
  split; [exact H1|]. split; [exact H2|]. split; [exact H3|].
  split; [exact H4|].
  exact (milestone_takes_priority Toy.env_resume 499
           (Toy.locals Toy.checkpoint_500 8) H1 H2 H3 H4).
Defined.

Lemma restored_params_start_at_step_zero_witness :
  load_source Toy.env_pretrained
    = ([], inr (None, Some [("wte", 1); ("lm_head", 2)]))
  ∧ ∃ ts, restore Toy.env_pretrained 42 = ([], inr (ts, 42))
      ∧ params ts = [("wte", 1); ("lm_head", 2)]
      ∧ opt_state ts
        = tx_init (optimizer_var Toy.env_pretrained) [("wte", 1); ("lm_head", 2)]
      ∧ step ts = 0
      ∧ py_range (step ts) (total_steps (FLAGS Toy.env_pretrained))
        = (λ i : nat, Z.of_nat i)
            <$> seq 0 (Z.to_nat (total_steps (FLAGS Toy.env_pretrained))).
Proof.
  assert (H : load_source Toy.env_pretrained
              = ([], inr (None, Some [("wte", 1); ("lm_head", 2)])))
    by reflexivity.
  split; [exact H|].
  exact (restored_params_start_at_step_zero Toy.env_pretrained 42 [] _ H).
Defined.

Lemma eval_steps_leave_train_state_witness :
  ∃ tr s' l,
    eval_loop Toy.env_eval 2 (Toy.locals Toy.checkpoint_500 8) ∅ [] = (tr, inr (s', l))
    ∧ train_state s' = Toy.checkpoint_500.
Proof.
  destruct (eval_loop Toy.env_eval 2 (Toy.locals Toy.checkpoint_500 8) ∅ [])
    as [tr [e|[s' l]]] eqn:H.
  - vm_compute in H. discriminate H.
  - exists tr, s', l. split; [reflexivity|].
    exact (eval_steps_leave_train_state Toy.env_eval 2
             (Toy.locals Toy.checkpoint_500 8) ∅ [] tr s' l H).
Defined.

Lemma seq_length_mismatch_fails_at_startup_witness :
  load_train_datasets Toy.flags_mismatch
    = ([], inr (Toy.dataset (16, 4%nat) 50, Toy.dataset (32, 4%nat) 50, Some 50))
  ∧ seq_length (Toy.dataset (16, 4%nat) 50)
    ≠ seq_length (Toy.dataset (32, 4%nat) 50)
  ∧ main Toy.flags_mismatch 0
    = ([EvLoadTrainData (Toy.dataset (16, 4%nat) 50)
                        (Toy.dataset (32, 4%nat) 50)],
       inl (AssertionError
              "HF and PT datasets must have the same sequence length.")).
Proof.
  assert (H1 : load_train_datasets Toy.flags_mismatch
               = ([], inr (Toy.dataset (16, 4%nat) 50,
                           Toy.dataset (32, 4%nat) 50, Some 50)))
    by reflexivity.
  assert (H2 : seq_length (Toy.dataset (16, 4%nat) 50)
               ≠ seq_length (Toy.dataset (32, 4%nat) 50))
    by (vm_compute; discriminate).
  split; [exact H1|]. split; [exact H2|].
  exact (proj1 (seq_length_mismatch_fails_at_startup Toy.flags_mismatch 0 _ _ _ _
                  H1) H2).
Defined.

(** ** Whole runs of [main] on the small world *)

(** With [model='opt'] and rolling checkpoints on, [main] stops at the
    first [save_checkpoint], before any training step. *)
Example main_opt_stops_at_first_checkpoint :
  (main Toy.flags_opt 0).2 = inl (NameError "gptj_config")
  ∧ train_steps (main Toy.flags_opt 0).1 = []
  ∧ save_calls (main Toy.flags_opt 0).1 = [(0, false)].
Proof. vm_compute. repeat split; reflexivity. Qed.

(** One 'gptj' step with one evaluation step: the record that is logged
    has the training loss and no evaluation loss. *)
Example main_logs_no_eval_metrics :
  let tr := (main (Toy.with_intervals Toy.flags 1 1 0 0 1) 0).1 in
  length (logged "eval_hf_loss" tr) = 1%nat
  ∧ logged "eval_hf_loss" tr = [None]
  ∧ logged "eval_pt_accuracy" tr = [None]
  ∧ logged "hf_loss" tr ≠ [None]
  ∧ logged "step" tr = [Some (PyInt 0)].
Proof. vm_compute. repeat split; try reflexivity. discriminate. Qed.

(** ** Further properties at work *)

Lemma dataset_state_needs_two_paths_witness :
  load_dataset_state Toy.flags_one_path ≠ ""
  ∧ count_char "," (load_dataset_state Toy.flags_one_path) ≠ 1%nat
  ∧ main Toy.flags_one_path 0
    = ([], inl (ValueError "wrong number of values to unpack")).
Proof.
  assert (H1 : load_dataset_state Toy.flags_one_path ≠ "") by discriminate.
  assert (H2 : count_char "," (load_dataset_state Toy.flags_one_path) ≠ 1%nat)
    by (vm_compute; discriminate).
  split; [exact H1|]. split; [exact H2|].
  exact (dataset_state_needs_two_paths Toy.flags_one_path 0 H1 H2).
Defined.

Lemma dataset_state_loads_both_pickles_witness :
  load_dataset_state Toy.flags_two_paths ≠ ""
  ∧ count_char "," (load_dataset_state Toy.flags_two_paths) = 1%nat
  ∧ ∃ a b, load_dataset_state Toy.flags_two_paths = a +:+ "," +:+ b
      ∧ count_char "," a = 0%nat ∧ count_char "," b = 0%nat
      ∧ load_train_datasets Toy.flags_two_paths
        = ([], inr (load_pickle a, load_pickle b, None)).
Proof.
  assert (H1 : load_dataset_state Toy.flags_two_paths ≠ "") by discriminate.
  assert (H2 : count_char "," (load_dataset_state Toy.flags_two_paths) = 1%nat)
    by reflexivity.
  split; [exact H1|]. split; [exact H2|].
  exact (dataset_state_loads_both_pickles Toy.flags_two_paths H1 H2).
Defined.

Lemma dataset_state_breaks_model_setup_witness :
  load_dataset_state Toy.flags_two_paths ≠ ""
  ∧ load_train_datasets Toy.flags_two_paths
    = ([], inr (load_pickle "hf.pkl", load_pickle "pt.pkl", None))
  ∧ seq_length (load_pickle "hf.pkl") = seq_length (load_pickle "pt.pkl")
  ∧ main Toy.flags_two_paths 0
    = ([EvLoadTrainData (load_pickle "hf.pkl") (load_pickle "pt.pkl")],
       inl (UnboundLocalError "tokenizer")).
Proof.
  assert (H1 : load_dataset_state Toy.flags_two_paths ≠ "") by discriminate.
  assert (H2 : load_train_datasets Toy.flags_two_paths
               = ([], inr (load_pickle "hf.pkl", load_pickle "pt.pkl", None)))
    by reflexivity.
  assert (H3 : seq_length (load_pickle "hf.pkl")
               = seq_length (load_pickle "pt.pkl")) by reflexivity.
  split; [exact H1|]. split; [exact H2|]. split; [exact H3|].
  exact (dataset_state_breaks_model_setup Toy.flags_two_paths 0 _ _ _ _ GPTJ
           H1 H2 H3 (or_introl (conj eq_refl eq_refl))).
Defined.

Lemma unknown_model_never_trains_witness :
  model Toy.flags_unknown_model ≠ "gptj"
  ∧ model Toy.flags_unknown_model ≠ "opt"
  ∧ ∃ e, (main Toy.flags_unknown_model 0).2 = inl e
       ∧ (∃ msg, e = ValueError msg ∨ e = AssertionError msg)
       ∧ ∀ ev, ev ∈ (main Toy.flags_unknown_model 0).1 →
           past_startup ev = false.
Proof.
  assert (H1 : model Toy.flags_unknown_model ≠ "gptj") by discriminate.
  assert (H2 : model Toy.flags_unknown_model ≠ "opt") by discriminate.
  split; [exact H1|]. split; [exact H2|].
  exact (unknown_model_never_trains Toy.flags_unknown_model 0 H1 H2).
Defined.

Lemma model_config_covers_tokenizer_witness :
  model Toy.flags_opt = "opt"
  ∧ flag_config Toy.flags_opt OPT
    = inr {| bos_token_id := 0; eos_token_id := 0; vocab_size := 40;
             config_rest := tt |}
  ∧ ∃ c, build_model Toy.flags_opt (Some 50)
         = ([EvModelConstruct OPT c], inr (OPT, c, None, Some c))
      ∧ bos_token_id c = tok_bos_token_id 50
      ∧ eos_token_id c = tok_eos_token_id 50
      ∧ vocab_size c = 40 `max` tok_len 50
      ∧ config_rest c = tt.
Proof.
  split; [reflexivity|]. split; [reflexivity|].
  exact (model_config_covers_tokenizer Toy.flags_opt 50 OPT
           (or_intror (conj eq_refl eq_refl))).
Defined.

Lemma load_checkpoint_needs_separator_witness :
  load_checkpoint (FLAGS Toy.env_no_separator) ≠ ""
  ∧ (∀ l r, load_checkpoint (FLAGS Toy.env_no_separator) ≠ l +:+ "::" +:+ r)
  ∧ restore Toy.env_no_separator 42
    = ([], inl (ValueError "not enough values to unpack")).
Proof.
  assert (H1 : load_checkpoint (FLAGS Toy.env_no_separator) ≠ "")
    by discriminate.
  assert (H2 : ∀ l r, load_checkpoint (FLAGS Toy.env_no_separator)
                      ≠ l +:+ "::" +:+ r)
    by (apply split_once_none; reflexivity).
  split; [exact H1|]. split; [exact H2|].
  exact (load_checkpoint_needs_separator Toy.env_no_separator H1 H2 42).
Defined.

Lemma huggingface_load_goes_through_gptj_config_witness :
  load_checkpoint (FLAGS Toy.env_pretrained) = "huggingface::" +:+ "gpt-j"
  ∧ restore Toy.env_pretrained 42
    = ([], inr ({| step := 0; params := [("wte", 1); ("lm_head", 2)];
                   opt_state := 0 |}, 42)).
Proof.
  split; [reflexivity|].
  exact (huggingface_load_goes_through_gptj_config Toy.env_pretrained "gpt-j"
           42 eq_refl).
Defined.

Lemma eval_exhaustion_is_fatal_witness :
  log_freq (FLAGS Toy.env_eval) ≠ 0
  ∧ 0 `mod` log_freq (FLAGS Toy.env_eval) = 0
  ∧ Z.of_nat (length (hf_eval_iterator (Toy.locals Toy.checkpoint_500 1)))
    < eval_steps (FLAGS Toy.env_eval)
  ∧ ∃ m, loop_body Toy.env_eval (Toy.locals Toy.checkpoint_500 1)
           (0, Toy.batch, Toy.batch)
         = (EvTrainStep 0 m :: replicate 1 (EvEvalStep m), inl StopIteration).
Proof.
  assert (H1 : log_freq (FLAGS Toy.env_eval) ≠ 0) by (vm_compute; discriminate).
  assert (H2 : 0 `mod` log_freq (FLAGS Toy.env_eval) = 0) by reflexivity.
  assert (H3 : Z.of_nat (length (hf_eval_iterator
                                   (Toy.locals Toy.checkpoint_500 1)))
               < eval_steps (FLAGS Toy.env_eval)) by reflexivity.
  split; [exact H1|]. split; [exact H2|]. split; [exact H3|].
  exact (eval_exhaustion_is_fatal Toy.env_eval (Toy.locals Toy.checkpoint_500 1)
           0 Toy.batch Toy.batch H1 H2 (or_introl H3)).
Defined.

Lemma zero_log_freq_aborts_run_witness :
  log_freq (FLAGS Toy.env_zero_log_freq) = 0
  ∧ step (TrainState_create Toy.env_zero_log_freq [])
    < total_steps (FLAGS Toy.env_zero_log_freq)
  ∧ saves_ok Toy.env_zero_log_freq
  ∧ (run Toy.env_zero_log_freq (TrainState_create Toy.env_zero_log_freq [])
         42 (Toy.dataset (16, 4%nat) 50) (Toy.dataset (16, 4%nat) 50) [] []).2
    = inl ZeroDivisionError
  ∧ save_calls
      (run Toy.env_zero_log_freq (TrainState_create Toy.env_zero_log_freq [])
         42 (Toy.dataset (16, 4%nat) 50) (Toy.dataset (16, 4%nat) 50) [] []).1
    = [(0, false)].
Proof.
  assert (H1 : log_freq (FLAGS Toy.env_zero_log_freq) = 0) by reflexivity.
  assert (H2 : saves_ok Toy.env_zero_log_freq) by (left; eexists; reflexivity).
  split; [exact H1|]. split; [reflexivity|]. split; [exact H2|].
  destruct (zero_log_freq_aborts_run Toy.env_zero_log_freq
              (TrainState_create Toy.env_zero_log_freq []) 42
              (Toy.dataset (16, 4%nat) 50) (Toy.dataset (16, 4%nat) 50) [] []
              H1) as (Hr & _ & Hs);
    [reflexivity | discriminate | discriminate | exact H2 |].
  split; [exact Hr | exact Hs].
Defined.




(** Three logging steps with one evaluation step each: three held-out
    batches of each kind are enough, and are all used. *)
Lemma held_out_batches_consumed_witness :
  saves_ok Toy.env_short
  ∧ log_freq (FLAGS Toy.env_short) ≠ 0
  ∧ ∃ tr s,
      run Toy.env_short Toy.checkpoint_500 42
          (Toy.dataset (16, 8%nat) 50) (Toy.dataset (16, 8%nat) 50)
          (repeat Toy.batch 3) (repeat Toy.batch 3) = (tr, inr s)
      ∧ hf_eval_iterator s
        = drop (Z.to_nat (eval_steps (FLAGS Toy.env_short))
                * length (log_steps (FLAGS Toy.env_short)
                            (run_steps (FLAGS Toy.env_short) Toy.checkpoint_500
                               (Toy.dataset (16, 8%nat) 50)
                               (Toy.dataset (16, 8%nat) 50))))
               (repeat Toy.batch 3)
      ∧ pt_eval_iterator s
        = drop (Z.to_nat (eval_steps (FLAGS Toy.env_short))
                * length (log_steps (FLAGS Toy.env_short)
                            (run_steps (FLAGS Toy.env_short) Toy.checkpoint_500
                               (Toy.dataset (16, 8%nat) 50)
                               (Toy.dataset (16, 8%nat) 50))))
               (repeat Toy.batch 3).
Proof.
  assert (H1 : saves_ok Toy.env_short) by (left; eexists; reflexivity).
  assert (H2 : log_freq (FLAGS Toy.env_short) ≠ 0) by (vm_compute; discriminate).
  split; [exact H1|]. split; [exact H2|].
  apply (held_out_batches_consumed Toy.env_short Toy.checkpoint_500 42
           (Toy.dataset (16, 8%nat) 50) (Toy.dataset (16, 8%nat) 50)
           (repeat Toy.batch 3) (repeat Toy.batch 3) H1 H2);
    apply Nat.leb_le; reflexivity.
Defined.

Lemma loglikelihood_of_pairs_witness :
  ToyHarness.requests ≠ []
  ∧ Harness.loglikelihood ToyHarness.client
      ((λ pt, [pt.1; pt.2]) <$> ToyHarness.requests)
    = inr [(5%nat, false); (6%nat, true); (5%nat, false)].
Proof.
  assert (H : ToyHarness.requests ≠ []) by discriminate.
  split; [exact H|].
  destruct (loglikelihood_of_pairs ToyHarness.client ToyHarness.requests H)
    as (res & Hres & -> & _).
  exact Hres.
Defined.

Lemma model_inputs_shift_right_witness :
  - 2 ^ 31 ≤ bos_token_id (config Toy.env_eval) < 2 ^ 31
  ∧ model_inputs Toy.env_eval Toy.batch = [[1; 5; 6]; [1; 8; 9]]
  ∧ ∀ r row, tokens Toy.batch !! r = Some row →
      ∃ inp, model_inputs Toy.env_eval Toy.batch !! r = Some inp
        ∧ inp !! 0%nat = Some (bos_token_id (config Toy.env_eval))
        ∧ (∀ j, (S j < length row)%nat → inp !! S j = row !! j)
        ∧ length inp = (length row `max` 1)%nat.
Proof.
  assert (H : - 2 ^ 31 ≤ bos_token_id (config Toy.env_eval) < 2 ^ 31)
    by (cbn; lia).
  split; [exact H|]. split; [reflexivity|].
  exact (proj2 (proj2 (model_inputs_shift_right Toy.env_eval 11
                         (params Toy.checkpoint_500) Toy.batch H))).
Defined.

(** ** Resuming and running out of data *)

(** Resuming at step 500 with 1000 total steps: exactly 500 steps.  Ten of
    them log, with two evaluation steps each, so twenty held-out batches
    of each kind are enough. *)
Lemma resume_runs_remaining_steps_witness :
  step Toy.checkpoint_500 ≤ total_steps (FLAGS Toy.env_resume)
  ∧ loop_can_run Toy.env_resume
      (py_range (step Toy.checkpoint_500) (total_steps (FLAGS Toy.env_resume)))
      (repeat Toy.batch 20) (repeat Toy.batch 20)
  ∧ ∃ tr s,
      run Toy.env_resume Toy.checkpoint_500 42
          (Toy.dataset (16, 600%nat) 50) (Toy.dataset (16, 500%nat) 50)
          (repeat Toy.batch 20) (repeat Toy.batch 20) = (tr, inr s)
      ∧ (train_steps tr).*1 = py_range 500 1000
      ∧ Z.of_nat (length (train_steps tr)) = 1000 - 500
      ∧ step (train_state s) = 1000.
Proof.
  assert (H1 : step Toy.checkpoint_500 ≤ total_steps (FLAGS Toy.env_resume))
    by (vm_compute; discriminate).
  assert (H2 : loop_can_run Toy.env_resume
                 (py_range (step Toy.checkpoint_500)
                           (total_steps (FLAGS Toy.env_resume)))
                 (repeat Toy.batch 20) (repeat Toy.batch 20)).
  { split; [intros _; vm_compute; discriminate|].
    split; [left; eexists; reflexivity|].
    split; apply Nat.leb_le; vm_compute; reflexivity. }
  split; [exact H1|]. split; [exact H2|].
  apply (resume_runs_remaining_steps Toy.env_resume Toy.checkpoint_500 42
           (Toy.dataset (16, 600%nat) 50) (Toy.dataset (16, 500%nat) 50)
           (repeat Toy.batch 20) (repeat Toy.batch 20) H1);
    [vm_compute; discriminate | vm_compute; discriminate | exact H2].
Defined.

(** With [log_freq = 0] a resumed run with ten steps to do and batches for
    all of them trains one step and ends in [ZeroDivisionError]. *)
Lemma resume_runs_remaining_steps_counterexample :
  step Toy.checkpoint_500 ≤ total_steps (FLAGS Toy.env_resume_zero_log_freq)
  ∧ total_steps (FLAGS Toy.env_resume_zero_log_freq) - step Toy.checkpoint_500
    ≤ Z.of_nat (length (batches (Toy.dataset (16, 12%nat) 50)))
  ∧ total_steps (FLAGS Toy.env_resume_zero_log_freq) - step Toy.checkpoint_500
    ≤ Z.of_nat (length (batches (Toy.dataset (16, 10%nat) 50)))
  ∧ (run Toy.env_resume_zero_log_freq Toy.checkpoint_500 42
         (Toy.dataset (16, 12%nat) 50) (Toy.dataset (16, 10%nat) 50) [] []).2
    = inl ZeroDivisionError
  ∧ (train_steps
       (run Toy.env_resume_zero_log_freq Toy.checkpoint_500 42
            (Toy.dataset (16, 12%nat) 50) (Toy.dataset (16, 10%nat) 50)
            [] []).1).*1 = [500]
  ∧ Z.of_nat
      (length
         (train_steps
            (run Toy.env_resume_zero_log_freq Toy.checkpoint_500 42
                 (Toy.dataset (16, 12%nat) 50) (Toy.dataset (16, 10%nat) 50)
                 [] []).1))
    ≠ total_steps (FLAGS Toy.env_resume_zero_log_freq)
      - step Toy.checkpoint_500.
Proof.
  repeat split; try (vm_compute; reflexivity); vm_compute; discriminate.
Qed.


